(** * Verification of the KITTI label pipeline of [src/bounding_box.py]

    The file embeds the projection, occlusion and acceptance code of
    [bounding_box.py] and proves the properties its specification states.

    - [F64]: Python floats.  A finite binary64 value is represented by the
      rational number it denotes; every arithmetic operation computes the
      exact rational result and rounds it to the nearest binary64 value, ties
      to even.  Infinities, NaN and the sign of zero are outside the model:
      it describes runs in which no operation overflows and nothing is
      divided by zero.
    - [F64Check]: the rounding of [F64] compared with Rocq's primitive
      binary64 floats on samples.
    - [Np]: the few numpy array operations the code uses, on matrices stored
      as lists of rows.
    - [BoundingBox]: the functions of [bounding_box.py], written in a small
      monad that threads the array store (the image is mutated in place by
      the debug overlay) and records the calls that leave the module.
    - [Fixture]: a concrete camera rig on which the pipeline is run.
    - [Stages]: names for the intermediate results of one evaluation.
    The lemmas follow the definitions: arithmetic, pipeline, then one
    theorem for each property of the specification and its concrete runs. *)

From Stdlib Require Import String Ascii ZArith QArith Qround Qpower List Bool Lia Lqa.
From Stdlib Require Import Permutation.
From Stdlib Require Floats.
Import ListNotations.
Open Scope Q_scope.

(** * Binary64 arithmetic on rationals *)

Module F64.

(** A Python [float]: the rational value of a finite double. *)
Abbreviation float := Q (only parsing).

Definition pow2 (e : Z) : Q := 2 ^ e.

(** [ilog2 q] is the integer [k] with [2^k <= q < 2^(k+1)], for [0 < q]. *)
Definition ilog2 (q : Q) : Z :=
  let k := (Z.log2 (Qnum q) - Z.log2 (Zpos (Qden q)))%Z in
  if Qle_bool (pow2 k) q then k else (k - 1)%Z.

(** Nearest integer, ties to the even one. *)
Definition round_half_even (x : Q) : Z :=
  let f := Qfloor x in
  match Qcompare (x - inject_Z f) (1 # 2) with
  | Lt => f
  | Gt => (f + 1)%Z
  | Eq => if Z.even f then f else (f + 1)%Z
  end.

(** binary64: 53 bits of precision, least exponent of a subnormal -1074. *)
Definition prec : Z := 53.
Definition emin : Z := -1074.

(** Exponent of the unit in the last place of the binade of [q]. *)
Definition ulp_exp (q : Q) : Z := Z.max (ilog2 q - (prec - 1)) emin.

Definition rnd_pos (q : Q) : Q :=
  inject_Z (round_half_even (q / pow2 (ulp_exp q))) * pow2 (ulp_exp q).

(** Round-to-nearest-even onto binary64 (exponent range unbounded above). *)
Definition rnd64 (q : Q) : Q :=
  match Qcompare q 0 with
  | Eq => 0
  | Gt => Qred (rnd_pos q)
  | Lt => Qred (- rnd_pos (- q))
  end.

(** Python's [+], [-], [*], [/] on floats: the exact result, rounded. *)
Definition add (x y : float) : float := rnd64 (x + y).
Definition sub (x y : float) : float := rnd64 (x - y).
Definition mul (x y : float) : float := rnd64 (x * y).
Definition div (x y : float) : float := rnd64 (x / y).

(** Unary minus is exact. *)
Definition neg (x : float) : float := - x.

(** Comparisons are exact on the values. *)
Definition ltb (x y : float) : bool := negb (Qle_bool y x).
Definition leb (x y : float) : bool := Qle_bool x y.

(** [math.pi], the double 0x1.921fb54442d18p+1. *)
Definition pi : float := 884279719003555 # 281474976710656.

(** [math.radians(x)] is [x * (pi / 180.0)] with the constant rounded once. *)
Definition deg_to_rad : float := Eval vm_compute in div pi 180.
Definition radians (x : float) : float := mul x deg_to_rad.

(** C's [fmod(x, y)] is [x - n * y] with [n] the quotient truncated towards
    zero; the result is always representable, so it is not rounded. *)
Definition trunc (x : Q) : Z := if Qle_bool 0 x then Qfloor x else Qceiling x.
Definition fmod (x y : float) : float := x - inject_Z (trunc (x / y)) * y.

(** Python's [vx % wx] on floats (CPython's [float_rem]): the remainder of
    [fmod] takes the sign of the divisor by adding the divisor once, and that
    addition is rounded.  Python raises ZeroDivisionError for [wx = 0]; the
    pipeline only divides by [math.pi]. *)
Definition float_rem (vx wx : float) : float :=
  let m := fmod vx wx in
  if negb (Qeq_bool m 0)
  then if xorb (ltb wx 0) (ltb m 0) then add m wx else m
  else 0.

End F64.

(** * The model against the kernel's binary64

    Rocq's primitive floats are IEEE 754 binary64 numbers.  The functions
    below read the value of a primitive float as a rational and compare an
    operation of [F64] with the primitive one on a list of samples. *)

Module F64Check.
Import PrimFloat.

Definition Q_of_float (f : PrimFloat.float) : option Q :=
  match FloatOps.Prim2SF f with
  | SpecFloat.S754_zero _ => Some 0
  | SpecFloat.S754_finite s m e =>
      Some (Qred ((if s then -1 else 1) * inject_Z (Zpos m) * F64.pow2 e))
  | _ => None
  end.

(** [true] when the primitive result is finite and is the model's, or when
    the primitive result is not finite (overflow, which the model leaves out). *)
Definition agree (op : Q -> Q -> Q)
    (prim : PrimFloat.float -> PrimFloat.float -> PrimFloat.float)
    (a b : PrimFloat.float) : bool :=
  match Q_of_float a, Q_of_float b with
  | Some qa, Some qb =>
      match Q_of_float (prim a b) with
      | Some qr => Qeq_bool (F64.rnd64 (op qa qb)) qr
      | None => true
      end
  | _, _ => false
  end.

Definition samples : list PrimFloat.float :=
  [0x1.999999999999ap-4; 0x1.921fb54442d18p+1; 180; -0x1p-100;
   0x0.0000000000001p-1022; 0x1.8ff5c28f5c28fp+6; -7.25; 0x1.1df46a2529d39p-6;
   0x1.0000000000001p+0; 9007199254740992]%float.

Definition agree_on_samples (op : Q -> Q -> Q)
    (prim : PrimFloat.float -> PrimFloat.float -> PrimFloat.float) : bool :=
  forallb (fun p => agree op prim (fst p) (snd p)) (list_prod samples samples).

(** The heading computation of the tiny negative angle, on primitive floats:
    [radians(0 - 2^-100)] is its own [fmod] by pi, and adding pi gives pi. *)
Definition prim_pi : PrimFloat.float := 0x1.921fb54442d18p+1%float.
Definition prim_180 : PrimFloat.float := 180%float.

Definition prim_heading_of_tiny_negative : PrimFloat.float :=
  let raw := PrimFloat.mul (PrimFloat.sub 0 0x1p-100) (PrimFloat.div prim_pi prim_180) in
  PrimFloat.add raw prim_pi.

End F64Check.

(** * numpy arrays as lists of rows *)

Module Np.

Definition vector := list F64.float.
Definition matrix := list vector.

Fixpoint zip_with {A B C : Type} (f : A -> B -> C) (l : list A) (l' : list B) : list C :=
  match l, l' with
  | a :: t, b :: t' => f a b :: zip_with f t t'
  | _, _ => []
  end.

(** [np.vstack((a, b))] *)
Definition vstack (a b : matrix) : matrix := a ++ b.

(** [m[:n, :]] *)
Definition first_rows (n : nat) (m : matrix) : matrix := firstn n m.

(** [m[i, :]] of an [np.matrix]: a matrix of one row. *)
Definition row (i : nat) (m : matrix) : matrix := [nth i m []].

(** [m[:, j]] of an [np.matrix]: a matrix of one column. *)
Definition col (j : nat) (m : matrix) : matrix := map (fun r => [nth j r 0]) m.

(** [-m] *)
Definition negate (m : matrix) : matrix := map (map F64.neg) m.

(** [a / b], element by element. *)
Definition divide (a b : matrix) : matrix := zip_with (zip_with F64.div) a b.

(** [np.concatenate(ms)] along axis 0 and [np.concatenate(ms, axis=1)]. *)
Definition concatenate0 (ms : list matrix) : matrix := concat ms.
Fixpoint concatenate1 (ms : list matrix) : matrix :=
  match ms with
  | [] => []
  | [m] => m
  | m :: rest => zip_with (@app F64.float) m (concatenate1 rest)
  end.

(** [np.transpose(m)] *)
Fixpoint transpose (m : matrix) : matrix :=
  match m with
  | [] => []
  | r :: rs =>
      match rs with
      | [] => map (fun x => [x]) r
      | _ => zip_with cons r (transpose rs)
      end
  end.

(** [np.dot(a, b)] for two matrices; [inner] is the inner product of a row of
    [a] and a column of [b] as the numeric kernel behind numpy computes it. *)
Definition dot (inner : vector -> vector -> F64.float) (a b : matrix) : matrix :=
  map (fun r => map (fun c => inner r c) (transpose b)) a.

(** [m[:-1, :]] *)
Definition all_but_last (m : matrix) : matrix := removelast m.

(** [np.squeeze(np.asarray(m[-1, :]))]: the last row as a flat vector. *)
Definition last_row (m : matrix) : vector := last m [].

End Np.

(** * The simulator's data, as the code reads it *)

Module Carla.

(** [carla.Vector3D] and [carla.Location] *)
Record Vector3D := { x : F64.float; y : F64.float; z : F64.float }.

Record Rotation := { pitch : F64.float; yaw : F64.float; roll : F64.float }.

Record Transform := { location : Vector3D; rotation : Rotation }.

(** [carla.Transform(location)]: the rotation defaults to zero. *)
Definition Transform_of_location (l : Vector3D) : Transform :=
  {| location := l; rotation := {| pitch := 0; yaw := 0; roll := 0 |} |}.

Record BoundingBox := { bb_location : Vector3D; extent : Vector3D }.

(** A snapshot of an agent: [agent.type_id], [agent.get_transform()] and
    [agent.bounding_box]. *)
Record Actor := {
  type_id : string;
  transform : Transform;
  bounding_box : BoundingBox
}.

End Carla.

(** * What the module imports

    [bounding_box.py] calls into the simulator's client library
    ([ClientSideBoundingBoxes]), into numpy, and into [camera_utils] and
    [datadescriptor].  The first two are taken as an interface; the helpers
    of [camera_utils] and [datadescriptor] that decide a property are
    modelled further down from the specification. *)

Definition loc := nat.
Definition color := (Z * Z * Z)%type.
Definition position := (F64.float * F64.float)%type.

Class Collaborators := {
  (** contents of a numpy pixel array (the image, the depth map) *)
  Buf : Type;
  (** [depth_map[row, col]] *)
  depth_at : Buf -> Z -> Z -> F64.float;
  (** the conversion of a pixel coordinate to an array index *)
  pixel_index : F64.float -> Z;
  (** what [camera_utils.draw_rect(array, pos, size, color)] leaves in [array] *)
  draw_rect_pixels : Buf -> position -> Z -> color -> Buf;
  (** the canvas, [WINDOW_WIDTH] by [WINDOW_HEIGHT] pixels *)
  WINDOW_WIDTH : F64.float;
  WINDOW_HEIGHT : F64.float;
  (** the camera actor, opaque to this module *)
  Camera : Type;
  (** [ClientSideBoundingBoxes._create_bb_points(agent)], 8 rows of 4 *)
  create_bb_points : Carla.Actor -> Np.matrix;
  (** [ClientSideBoundingBoxes._vehicle_to_sensor(cords, agent, camera)],
      4 rows with one column per point *)
  vehicle_to_sensor : Np.matrix -> Carla.Actor -> Camera -> Np.matrix;
  (** inner product used by [np.dot] *)
  inner : Np.vector -> Np.vector -> F64.float
}.

(** * The functions of [bounding_box.py] *)

Module BoundingBox.
Import Carla.

Definition OCCLUDED_VERTEX_COLOR : color := (255, 0, 0)%Z.
Definition VISIBLE_VERTEX_COLOR : color := (0, 255, 0)%Z.
Definition MIN_VISIBLE_VERTICES_FOR_RENDER : nat := 4.
Definition MIN_BBOX_AREA_IN_PX : F64.float := 100.

Inductive log_level := WARNING | INFO.

(** Calls that leave the module, in the order they are made. *)
Inductive event :=
| Logging (level : log_level) (msg : string) (args : list F64.float)
| Get_transform (agent : Actor)
| Create_bb_points (agent : Actor)
| Vehicle_to_sensor (cords : Np.matrix) (agent : Actor)
| Point_in_canvas (pos : position)
| Point_is_occluded (pos : position) (vertex_depth : F64.float) (depth_map : loc)
| Draw_rect (array : loc) (pos : position) (size : Z) (c : color)
| Calc_projected_2d_bbox (vertices : Np.matrix).

(** Modelled from the spec: the label record of [datadescriptor.py], which is
    not part of the sources.  The specification lists its fields (class, 2D
    box, 3D extents as given, 3D location, heading); a fresh descriptor has
    none of them set and each setter stores its argument. *)
Record KittiDescriptor := {
  kd_type : option string;
  kd_bbox : option (F64.float * F64.float * F64.float * F64.float);
  kd_dimensions : option Vector3D;
  kd_location : option Np.vector;
  kd_rotation_y : option F64.float
}.

Definition KittiDescriptor_new : KittiDescriptor :=
  {| kd_type := None; kd_bbox := None; kd_dimensions := None;
     kd_location := None; kd_rotation_y := None |}.

Definition set_type (d : KittiDescriptor) (obj_type : option string) :=
  {| kd_type := obj_type; kd_bbox := kd_bbox d; kd_dimensions := kd_dimensions d;
     kd_location := kd_location d; kd_rotation_y := kd_rotation_y d |}.

Definition set_bbox (d : KittiDescriptor) (bbox : F64.float * F64.float * F64.float * F64.float) :=
  {| kd_type := kd_type d; kd_bbox := Some bbox; kd_dimensions := kd_dimensions d;
     kd_location := kd_location d; kd_rotation_y := kd_rotation_y d |}.

Definition set_3d_object_dimensions (d : KittiDescriptor) (ext : option Vector3D) :=
  {| kd_type := kd_type d; kd_bbox := kd_bbox d; kd_dimensions := ext;
     kd_location := kd_location d; kd_rotation_y := kd_rotation_y d |}.

Definition set_3d_object_location (d : KittiDescriptor) (obj_location : Np.vector) :=
  {| kd_type := kd_type d; kd_bbox := kd_bbox d; kd_dimensions := kd_dimensions d;
     kd_location := Some obj_location; kd_rotation_y := kd_rotation_y d |}.

Definition set_rotation_y (d : KittiDescriptor) (rotation_y : F64.float) :=
  {| kd_type := kd_type d; kd_bbox := kd_bbox d; kd_dimensions := kd_dimensions d;
     kd_location := kd_location d; kd_rotation_y := Some rotation_y |}.

(** What [create_kitti_datapoint] returns: a tuple of two or of three. *)
Inductive py_tuple :=
| Tuple2 (image : loc) (datapoint : option KittiDescriptor)
| Tuple3 (image : loc) (datapoint : option KittiDescriptor) (camera_bbox : option Np.matrix).

Definition arity (t : py_tuple) : nat :=
  match t with Tuple2 _ _ => 2 | Tuple3 _ _ _ => 3 end.

Definition label_of (t : py_tuple) : option KittiDescriptor :=
  match t with Tuple2 _ d => d | Tuple3 _ d _ => d end.

(** Python's [needle in hay] on strings. *)
Fixpoint contains (needle hay : string) : bool :=
  if String.prefix needle hay then true
  else match hay with
       | EmptyString => false
       | String _ rest => contains needle rest
       end.

Section WithCollaborators.
Context {E : Collaborators}.

(** ** Store and trace *)

(** The arrays are objects identified by their address; [image] and
    [depth_map] are such addresses. *)
Definition heap := loc -> Buf.

Definition update (h : heap) (l : loc) (b : Buf) : heap :=
  fun l' => if Nat.eqb l' l then b else h l'.

Record Run (A : Type) := mkRun { value : A; store : heap; events : list event }.
Arguments mkRun {A}.
Arguments value {A}.
Arguments store {A}.
Arguments events {A}.

Definition M (A : Type) : Type := heap -> Run A.

Definition ret {A : Type} (a : A) : M A := fun h => mkRun a h [].

Definition bind {A B : Type} (m : M A) (k : A -> M B) : M B :=
  fun h =>
    let r1 := m h in
    let r2 := k (value r1) (store r1) in
    mkRun (value r2) (store r2) (events r1 ++ events r2).

Definition emit (e : event) : M unit := fun h => mkRun tt h [e].

Notation "x <- m ;; k" := (bind m (fun x => k))
  (at level 61, m at next level, right associativity).
Notation "' pat <- m ;; k" := (bind m (fun x => match x with pat => k end))
  (at level 61, pat pattern, m at next level, right associativity).
Notation "m ;; k" := (bind m (fun _ => k))
  (at level 61, right associativity).

(** ** [logging] *)

Definition logging_warning (msg : string) : M unit := emit (Logging WARNING msg []).
Definition logging_info (msg : string) (args : list F64.float) : M unit :=
  emit (Logging INFO msg args).

(** ** [camera_utils] *)

(** Modelled from the spec: [camera_utils.point_in_canvas] is not part of the
    sources.  The specification gives the canvas as [0,width) x [0,height);
    the code passes the position as [(y, x)]. *)
Definition point_in_canvas (pos : position) : M bool :=
  emit (Point_in_canvas pos) ;;
  ret (F64.leb 0 (fst pos) && F64.ltb (fst pos) WINDOW_HEIGHT &&
       F64.leb 0 (snd pos) && F64.ltb (snd pos) WINDOW_WIDTH).

(** Modelled from the spec: [camera_utils.point_is_occluded] is not part of
    the sources.  The specification looks the depth buffer up at the point's
    integer row and column and calls the point occluded when the stored
    depth is strictly less than the point's own. *)
Definition point_is_occluded (pos : position) (vertex_depth : F64.float)
    (depth_map : loc) : M bool :=
  emit (Point_is_occluded pos vertex_depth depth_map) ;;
  fun h =>
    mkRun (F64.ltb (depth_at (h depth_map) (pixel_index (fst pos)) (pixel_index (snd pos)))
                   vertex_depth) h [].

(** [camera_utils.draw_rect] writes into the array it is given. *)
Definition draw_rect (array : loc) (pos : position) (size : Z) (c : color) : M unit :=
  emit (Draw_rect array pos size c) ;;
  fun h => mkRun tt (update h array (draw_rect_pixels (h array) pos size c)) [].

Definition qmin (a b : F64.float) : F64.float := if Qle_bool a b then a else b.
Definition qmax (a b : F64.float) : F64.float := if Qle_bool a b then b else a.

(** Modelled from the spec: [camera_utils.calc_projected_2d_bbox] is not part
    of the sources.  The specification takes the axis-aligned bounds over
    the corner projections, occluded or not: xmin, ymin, xmax, ymax. *)
Definition calc_projected_2d_bbox (vertices : Np.matrix)
    : M (F64.float * F64.float * F64.float * F64.float) :=
  emit (Calc_projected_2d_bbox vertices) ;;
  let xs := map (fun p => nth 0 p 0) vertices in
  let ys := map (fun p => nth 1 p 0) vertices in
  ret (fold_right qmin (hd 0 xs) xs, fold_right qmin (hd 0 ys) ys,
       fold_right qmax (hd 0 xs) xs, fold_right qmax (hd 0 ys) ys).

(** ** [calculate_occlusion_stats] *)

(** One turn of the loop over the rows of [bbox_points]. *)
Definition occlusion_vertex (image : loc) (depth_map : loc)
    (max_render_depth : F64.float) (draw_vertices : bool)
    (point : Np.vector) (counts : nat * nat) : M (nat * nat) :=
  let num_visible_vertices := fst counts in
  let num_vertices_outside_camera := snd counts in
  let x_2d := nth 0 point 0 in
  let y_2d := nth 1 point 0 in
  let point_depth := nth 2 point 0 in
  in_view <- (if F64.ltb point_depth max_render_depth && F64.ltb 0 point_depth
              then point_in_canvas (y_2d, x_2d)
              else ret false) ;;
  if in_view then
    is_occluded <- point_is_occluded (y_2d, x_2d) point_depth depth_map ;;
    let num_visible_vertices :=
      if is_occluded then num_visible_vertices else S num_visible_vertices in
    let vertex_color :=
      if is_occluded then OCCLUDED_VERTEX_COLOR else VISIBLE_VERTEX_COLOR in
    (if draw_vertices then draw_rect image (y_2d, x_2d) 4 vertex_color else ret tt) ;;
    ret (num_visible_vertices, num_vertices_outside_camera)
  else
    ret (num_visible_vertices, S num_vertices_outside_camera).

Fixpoint occlusion_loop (image : loc) (depth_map : loc)
    (max_render_depth : F64.float) (draw_vertices : bool)
    (points : Np.matrix) (counts : nat * nat) : M (nat * nat) :=
  match points with
  | [] => ret counts
  | point :: rest =>
      counts' <- occlusion_vertex image depth_map max_render_depth draw_vertices point counts ;;
      occlusion_loop image depth_map max_render_depth draw_vertices rest counts'
  end.

Definition calculate_occlusion_stats (image : loc) (bbox_points : Np.matrix)
    (depth_map : loc) (max_render_depth : F64.float) (draw_vertices : bool)
    : M (nat * nat) :=
  occlusion_loop image depth_map max_render_depth draw_vertices bbox_points (0, 0)%nat.

(** ** [get_bounding_box_and_refpoint] *)

Definition get_bounding_box_and_refpoint (agent : Actor) (camera : Camera)
    (camera_calibration : Np.matrix)
    : M ((Np.matrix * Np.vector) * (Np.matrix * Np.vector)) :=
  let bbox_refpoint : Np.matrix := [[0; 0; 0; 1]] in
  emit (Create_bb_points agent) ;;
  let bb_cords := create_bb_points agent in
  let bb_cords_and_refpoint := Np.vstack bb_cords bbox_refpoint in
  emit (Vehicle_to_sensor bb_cords_and_refpoint agent) ;;
  let cords_x_y_z :=
    Np.first_rows 3 (vehicle_to_sensor bb_cords_and_refpoint agent camera) in
  let cords_y_minus_z_x :=
    Np.concatenate0 [Np.row 1 cords_x_y_z; Np.negate (Np.row 2 cords_x_y_z);
                     Np.row 0 cords_x_y_z] in
  let bbox_and_refpoint :=
    Np.transpose (Np.dot inner camera_calibration cords_y_minus_z_x) in
  let camera_bbox_refpoint :=
    Np.concatenate1
      [Np.divide (Np.col 0 bbox_and_refpoint) (Np.col 2 bbox_and_refpoint);
       Np.divide (Np.col 1 bbox_and_refpoint) (Np.col 2 bbox_and_refpoint);
       Np.col 2 bbox_and_refpoint] in
  let sensor_bbox_refpoint := Np.transpose cords_x_y_z in
  let camera_bbox := Np.all_but_last camera_bbox_refpoint in
  let camera_refpoint := Np.last_row camera_bbox_refpoint in
  let sensor_bbox := Np.all_but_last sensor_bbox_refpoint in
  let sensor_refpoint := Np.last_row sensor_bbox_refpoint in
  ret ((camera_bbox, camera_refpoint), (sensor_bbox, sensor_refpoint)).

(** ** [get_relative_rotation_y] *)

Definition get_relative_rotation_y (agent : Actor) (player_transform : Transform)
    : M F64.float :=
  emit (Get_transform agent) ;;
  let rot_agent := yaw (rotation (transform agent)) in
  let rot_vehicle := yaw (rotation player_transform) in
  ret (F64.radians (F64.sub rot_agent rot_vehicle)).

(** ** [transforms_from_agent] *)

Definition transforms_from_agent (agent : Actor)
    : M (option string * option Transform * option Transform *
         option Vector3D * option Vector3D) :=
  let obj_type :=
    if contains "pedestrian" (type_id agent) then Some "Pedestrian"%string
    else if contains "vehicle" (type_id agent) then Some "Car"%string
    else None in
  match obj_type with
  | None => ret (None, None, None, None, None)
  | Some _ =>
      emit (Get_transform agent) ;;
      let agent_transform := transform agent in
      let bbox_transform := Transform_of_location (bb_location (bounding_box agent)) in
      let ext := extent (bounding_box agent) in
      let location := location agent_transform in
      ret (obj_type, Some agent_transform, Some bbox_transform, Some ext, Some location)
  end.

(** ** [calc_bbox2d_area] *)

Definition calc_bbox2d_area (bbox_2d : F64.float * F64.float * F64.float * F64.float)
    : F64.float :=
  let '(xmin, ymin, xmax, ymax) := bbox_2d in
  F64.mul (F64.sub ymax ymin) (F64.sub xmax xmin).

(** ** [create_kitti_datapoint] *)

(** The chained comparison of the acceptance test,
    [num_visible >= threshold > num_outside], as a function of the constant
    it compares both counts with. *)
Definition enough_visible (threshold num_visible_vertices : nat) : bool :=
  (threshold <=? num_visible_vertices)%nat.
Definition few_outside (threshold num_vertices_outside_camera : nat) : bool :=
  (num_vertices_outside_camera <? threshold)%nat.
Definition visibility_gate (threshold num_visible_vertices num_vertices_outside_camera : nat)
    : bool :=
  enough_visible threshold num_visible_vertices &&
  few_outside threshold num_vertices_outside_camera.

Definition default_max_render_depth : F64.float := 70.

Definition create_kitti_datapoint (agent : Actor) (camera : Camera)
    (cam_calibration : Np.matrix) (image : loc) (depth_map : loc)
    (player_transform : Transform) (max_render_depth : F64.float) : M py_tuple :=
  '(obj_type, agent_transform, bbox_transform, ext, location) <- transforms_from_agent agent ;;
  match obj_type with
  | None =>
      logging_warning "Could not get bounding box for agent. Object type is None" ;;
      ret (Tuple2 image None)
  | Some _ =>
      '((camera_bbox, camera_refpoint), (sensor_bbox, sensor_refpoint)) <-
        get_bounding_box_and_refpoint agent camera cam_calibration ;;
      '(num_visible_vertices, num_vertices_outside_camera) <-
        calculate_occlusion_stats image camera_bbox depth_map max_render_depth false ;;
      if visibility_gate MIN_VISIBLE_VERTICES_FOR_RENDER
           num_visible_vertices num_vertices_outside_camera
      then
        bbox_2d <- calc_projected_2d_bbox camera_bbox ;;
        let area := calc_bbox2d_area bbox_2d in
        if F64.ltb area MIN_BBOX_AREA_IN_PX then
          logging_info "Filtered out bbox with too low area {}" [area] ;;
          ret (Tuple3 image None None)
        else
          raw_rotation <- get_relative_rotation_y agent player_transform ;;
          let rotation_y := F64.float_rem raw_rotation F64.pi in
          let datapoint := KittiDescriptor_new in
          let datapoint := set_type datapoint obj_type in
          let datapoint := set_bbox datapoint bbox_2d in
          let datapoint := set_3d_object_dimensions datapoint ext in
          let datapoint := set_3d_object_location datapoint sensor_refpoint in
          let datapoint := set_rotation_y datapoint rotation_y in
          ret (Tuple3 image (Some datapoint) (Some camera_bbox))
      else
        ret (Tuple3 image None None)
  end.

End WithCollaborators.

Arguments mkRun {E A}.
Arguments value {E A}.
Arguments store {E A}.
Arguments events {E A}.

End BoundingBox.

(** * A concrete rig for examples

    A camera at the origin of the world, looking along the x axis and not
    rotated, in front of a 100 by 100 pixel canvas; agents that are not
    rotated either.  The corner order is the simulator's.  It is used to run
    the pipeline on concrete scenes; no general statement depends on it. *)

Module Fixture.
Import Carla BoundingBox.

Definition corners (agent : Actor) : Np.matrix :=
  let e := extent (bounding_box agent) in
  [[x e; y e; - z e; 1]; [- x e; y e; - z e; 1];
   [- x e; - y e; - z e; 1]; [x e; - y e; - z e; 1];
   [x e; y e; z e; 1]; [- x e; y e; z e; 1];
   [- x e; - y e; z e; 1]; [x e; - y e; z e; 1]].

(** With no rotation anywhere the change of frame is a translation by the
    box offset and the agent's position. *)
Definition shift (agent : Actor) (cords : Np.matrix) : Np.matrix :=
  let o := bb_location (bounding_box agent) in
  let l := location (transform agent) in
  Np.transpose
    (map (fun p => [F64.add (F64.add (nth 0 p 0) (x o)) (x l);
                    F64.add (F64.add (nth 1 p 0) (y o)) (y l);
                    F64.add (F64.add (nth 2 p 0) (z o)) (z l);
                    nth 3 p 0]) cords).

(** Inner product summed from left to right. *)
Definition inner_lr (r c : Np.vector) : F64.float :=
  fold_left F64.add (Np.zip_with F64.mul r c) 0.

Definition paint (b : Z -> Z -> F64.float) (pos : position) (size : Z) (c : color)
    : Z -> Z -> F64.float :=
  fun r k =>
    if ((Qfloor (fst pos) - size / 2 <=? r) && (r <? Qfloor (fst pos) + size / 2) &&
        (Qfloor (snd pos) - size / 2 <=? k) && (k <? Qfloor (snd pos) + size / 2))%Z
    then inject_Z (fst (fst c)) else b r k.

Definition rig : Collaborators := {|
  Buf := Z -> Z -> F64.float;
  depth_at := fun b r k => b r k;
  pixel_index := Qfloor;
  draw_rect_pixels := paint;
  WINDOW_WIDTH := 100;
  WINDOW_HEIGHT := 100;
  Camera := unit;
  create_bb_points := corners;
  vehicle_to_sensor := fun cords agent _ => shift agent cords;
  inner := inner_lr
|}.

Definition calibration : Np.matrix := [[10; 0; 50]; [0; 10; 50]; [0; 0; 1]].

Definition origin : Vector3D := {| x := 0; y := 0; z := 0 |}.

Definition pose (px : F64.float) (yaw_deg : F64.float) : Transform :=
  {| location := {| x := px; y := 0; z := 0 |};
     rotation := {| pitch := 0; yaw := yaw_deg; roll := 0 |} |}.

(** A unit-half-extent box [px] ahead of the camera, heading [yaw_deg]. *)
Definition agent_at (tag : string) (px yaw_deg : F64.float) : Actor :=
  {| type_id := tag;
     transform := pose px yaw_deg;
     bounding_box := {| bb_location := origin;
                        extent := {| x := 1; y := 1; z := 1 |} |} |}.

Definition image : loc := 0%nat.
Definition depth_map : loc := 1%nat.

(** The store: a black image and a depth map holding [d] everywhere. *)
Definition scene (d : F64.float) : @heap rig :=
  fun l => if Nat.eqb l depth_map then (fun _ _ => d) else (fun _ _ => 0).

Definition run_datapoint (agent : Actor) (player_yaw : F64.float) (d : F64.float)
    : @Run rig py_tuple :=
  @create_kitti_datapoint rig agent tt calibration image depth_map
    (pose 0 player_yaw) default_max_render_depth (scene d).

(** A car, a prop that belongs to no class, and a depth beyond every box. *)
Definition car (px yaw_deg : F64.float) : Actor := agent_at "vehicle.tesla.model3" px yaw_deg.
Definition prop : Actor := agent_at "static.prop.box" 3 0.
Definition far : F64.float := 1000.

End Fixture.

(** * The stages of one evaluation

    Names for the intermediate results of [create_kitti_datapoint], each
    read off the function that computes it. *)

Module Stages.
Import Carla BoundingBox.

Section WithCollaborators.
Context {E : Collaborators}.

(** The class given by [transforms_from_agent], or [None]. *)
Definition object_type (agent : Actor) (h : heap) : option string :=
  fst (fst (fst (fst (value (transforms_from_agent agent h))))).

(** The projected corners and the sensor-frame reference point. *)
Definition camera_bbox (agent : Actor) (camera : Camera) (cam_calibration : Np.matrix)
    (h : heap) : Np.matrix :=
  fst (fst (value (get_bounding_box_and_refpoint agent camera cam_calibration h))).

Definition sensor_refpoint (agent : Actor) (camera : Camera) (cam_calibration : Np.matrix)
    (h : heap) : Np.vector :=
  snd (snd (value (get_bounding_box_and_refpoint agent camera cam_calibration h))).

(** The counts of visible corners and of corners outside the view. *)
Definition counts (agent : Actor) (camera : Camera) (cam_calibration : Np.matrix)
    (image depth_map : loc) (max_render_depth : F64.float) (h : heap) : nat * nat :=
  value (calculate_occlusion_stats image (camera_bbox agent camera cam_calibration h)
           depth_map max_render_depth false h).

(** The 2D box and its area. *)
Definition bbox_2d (agent : Actor) (camera : Camera) (cam_calibration : Np.matrix)
    (h : heap) : F64.float * F64.float * F64.float * F64.float :=
  value (calc_projected_2d_bbox (camera_bbox agent camera cam_calibration h) h).

Definition area (agent : Actor) (camera : Camera) (cam_calibration : Np.matrix)
    (h : heap) : F64.float :=
  calc_bbox2d_area (bbox_2d agent camera cam_calibration h).

(** The heading stored in the label. *)
Definition heading (agent : Actor) (player_transform : Transform) (h : heap) : F64.float :=
  F64.float_rem (value (get_relative_rotation_y agent player_transform h)) F64.pi.

(** The label an accepted agent gets. *)
Definition label (agent : Actor) (camera : Camera) (cam_calibration : Np.matrix)
    (player_transform : Transform) (h : heap) : KittiDescriptor :=
  {| kd_type := object_type agent h;
     kd_bbox := Some (bbox_2d agent camera cam_calibration h);
     kd_dimensions := Some (extent (bounding_box agent));
     kd_location := Some (sensor_refpoint agent camera cam_calibration h);
     kd_rotation_y := Some (heading agent player_transform h) |}.

(** The projection of one sensor-frame point as the specification words it:
    reorder (x, y, z) to (y, -z, x), apply the rows of the calibration
    matrix, divide the first two products by the third and keep the third as
    the depth. *)
Definition pinhole_projection (cam_calibration : Np.matrix)
    (p : F64.float * F64.float * F64.float) : Np.vector :=
  let '(px, py, pz) := p in
  let reordered := [py; F64.neg pz; px] in
  let depth := inner (nth 2 cam_calibration []) reordered in
  [F64.div (inner (nth 0 cam_calibration []) reordered) depth;
   F64.div (inner (nth 1 cam_calibration []) reordered) depth;
   depth].

Fixpoint zip3 (xs ys zs : Np.vector) : list (F64.float * F64.float * F64.float) :=
  match xs, ys, zs with
  | a :: xs', b :: ys', c :: zs' => (a, b, c) :: zip3 xs' ys' zs'
  | _, _, _ => []
  end.

Definition coordinates (p : F64.float * F64.float * F64.float) : Np.vector :=
  let '(px, py, pz) := p in [px; py; pz].

(** The test guarding the lookup: in front of the camera, nearer than
    [max_render_depth], and on the canvas. *)
Definition in_view (mrd : F64.float) (point : Np.vector) : Prop :=
  (0 < nth 2 point 0 /\ nth 2 point 0 < mrd) /\
  (0 <= nth 0 point 0 /\ nth 0 point 0 < WINDOW_WIDTH) /\
  (0 <= nth 1 point 0 /\ nth 1 point 0 < WINDOW_HEIGHT).

(** Events that belong to the geometry stages or to the overlay. *)
Definition is_depth_lookup (e : event) : bool :=
  match e with Point_is_occluded _ _ _ => true | _ => false end.

Definition is_draw (e : event) : bool :=
  match e with Draw_rect _ _ _ _ => true | _ => false end.

Definition is_change_of_frame (e : event) : bool :=
  match e with Vehicle_to_sensor _ _ => true | _ => false end.

End WithCollaborators.
End Stages.

(** * The tests of the occlusion loop as boolean functions

    The same comparisons as in [occlusion_vertex] and the two helpers it
    calls, without the trace: they let the counts be written as the number
    of points that pass a test. *)

Module Verdicts.
Import Carla BoundingBox.

Section WithCollaborators.
Context {E : Collaborators}.

Definition in_view_b (max_render_depth : F64.float) (point : Np.vector) : bool :=
  (F64.ltb (nth 2 point 0) max_render_depth && F64.ltb 0 (nth 2 point 0)) &&
  (F64.leb 0 (nth 1 point 0) && F64.ltb (nth 1 point 0) WINDOW_HEIGHT &&
   F64.leb 0 (nth 0 point 0) && F64.ltb (nth 0 point 0) WINDOW_WIDTH).

Definition occluded_b (depth_buffer : Buf) (point : Np.vector) : bool :=
  F64.ltb (depth_at depth_buffer (pixel_index (nth 1 point 0)) (pixel_index (nth 0 point 0)))
          (nth 2 point 0).

Definition visible_b (depth_buffer : Buf) (max_render_depth : F64.float)
    (point : Np.vector) : bool :=
  in_view_b max_render_depth point && negb (occluded_b depth_buffer point).

Definition outside_b (max_render_depth : F64.float) (point : Np.vector) : bool :=
  negb (in_view_b max_render_depth point).

Definition count (f : Np.vector -> bool) (points : Np.matrix) : nat :=
  length (filter f points).


Definition draws_on (array : loc) (e : event) : bool :=
  match e with Draw_rect a _ _ _ => Nat.eqb a array | _ => false end.

Definition color_eqb (c c' : color) : bool :=
  let '(r, g, b) := c in
  let '(r', g', b') := c' in
  (r =? r')%Z && (g =? g')%Z && (b =? b')%Z.

(** A marker of the given colour. *)
Definition is_marker (c : color) (e : event) : bool :=
  match e with Draw_rect _ _ _ c' => color_eqb c c' | _ => false end.

End WithCollaborators.
End Verdicts.

(** A second rig, the same as [Fixture.rig] except that an agent's box is
    given by 2 of its corners only, so that 3 points are projected. *)

Module Segment.
Import Carla BoundingBox Fixture.

Definition rig2 : Collaborators := {|
  Buf := Z -> Z -> F64.float;
  depth_at := fun b r k => b r k;
  pixel_index := Qfloor;
  draw_rect_pixels := paint;
  WINDOW_WIDTH := 100;
  WINDOW_HEIGHT := 100;
  Camera := unit;
  create_bb_points := fun agent => firstn 2 (corners agent);
  vehicle_to_sensor := fun cords agent _ => shift agent cords;
  inner := inner_lr
|}.

Definition scene2 (d : F64.float) : @heap rig2 :=
  fun l => if Nat.eqb l depth_map then (fun _ _ => d) else (fun _ _ => 0).

End Segment.

(** * Properties of the arithmetic *)

Module F64Facts.
Import F64.

Lemma pow2_pos e : 0 < pow2 e.
Proof. apply Qpower_0_lt. reflexivity. Qed.

Lemma pow2_le a b : (a <= b)%Z -> pow2 a <= pow2 b.
Proof. intros H. apply Qpower_le_compat_l; [exact H | discriminate]. Qed.

Lemma pow2_lt a b : (a < b)%Z -> pow2 a < pow2 b.
Proof. intros H. apply Qpower_lt_compat_l; [exact H | reflexivity]. Qed.

Lemma pow2_add a b : pow2 (a + b) == pow2 a * pow2 b.
Proof. apply Qpower_plus. discriminate. Qed.

Lemma pow2_S a : pow2 (a + 1) == 2 * pow2 a.
Proof. rewrite pow2_add. unfold pow2 at 2. simpl. ring. Qed.

Lemma pow2_Z n : (0 <= n)%Z -> pow2 n == inject_Z (2 ^ n).
Proof. intros H. unfold pow2. rewrite Zpower_Qpower by exact H. reflexivity. Qed.


Lemma Q_frac q : q * inject_Z (Zpos (Qden q)) == inject_Z (Qnum q).
Proof. destruct q as [n d]. unfold Qeq, Qmult, inject_Z. simpl. lia. Qed.

Lemma Qnum_pos q : 0 < q -> (0 < Qnum q)%Z.
Proof. destruct q as [n d]. unfold Qlt. simpl. lia. Qed.

Lemma inject_Z_le a b : (a <= b)%Z -> inject_Z a <= inject_Z b.
Proof. intros H. rewrite <- Zle_Qle. exact H. Qed.

Lemma inject_Z_lt a b : (a < b)%Z -> inject_Z a < inject_Z b.
Proof. intros H. rewrite <- Zlt_Qlt. exact H. Qed.

Lemma ilog2_around q :
  0 < q ->
  let k := (Z.log2 (Qnum q) - Z.log2 (Zpos (Qden q)))%Z in
  pow2 (k - 1) < q /\ q < pow2 (k + 1).
Proof.
  intros Hq k.
  pose proof (Qnum_pos q Hq) as Hn.
  set (a := Z.log2 (Qnum q)) in *.
  set (b := Z.log2 (Zpos (Qden q))) in *.
  assert (Ha : (0 <= a)%Z) by apply Z.log2_nonneg.
  assert (Hb : (0 <= b)%Z) by apply Z.log2_nonneg.
  destruct (Z.log2_spec (Qnum q) Hn) as [Ha1 Ha2]. fold a in Ha1, Ha2.
  destruct (Z.log2_spec (Zpos (Qden q)) eq_refl) as [Hb1 Hb2]. fold b in Hb1, Hb2.
  pose proof (Q_frac q) as Hf.
  pose proof (pow2_pos b) as Pb.
  pose proof (pow2_pos (b + 1)) as Pb1.
  assert (Hd : 0 < inject_Z (Zpos (Qden q))) by reflexivity.
  apply inject_Z_le in Ha1, Hb1. apply inject_Z_lt in Ha2, Hb2.
  rewrite <- Z.add_1_r in Ha2, Hb2.
  rewrite <- pow2_Z in Ha1, Ha2, Hb1, Hb2 by lia.
  split.
  - apply (Qmult_lt_r _ _ (pow2 (b + 1))); [exact Pb1|].
    rewrite <- pow2_add. replace (k - 1 + (b + 1))%Z with a by (unfold k; lia).
    apply Qle_lt_trans with (inject_Z (Qnum q)); [exact Ha1|].
    rewrite <- Hf. apply Qmult_lt_l; [exact Hq | exact Hb2].
  - apply (Qmult_lt_r _ _ (pow2 b)); [exact Pb|].
    rewrite <- pow2_add. replace (k + 1 + b)%Z with (a + 1)%Z by (unfold k; lia).
    apply Qle_lt_trans with (inject_Z (Qnum q)); [|exact Ha2].
    rewrite <- Hf. apply Qmult_le_l; [exact Hq | exact Hb1].
Qed.

Lemma ilog2_spec q : 0 < q -> pow2 (ilog2 q) <= q /\ q < pow2 (ilog2 q + 1).
Proof.
  intros Hq. destruct (ilog2_around q Hq) as [Hlo Hhi].
  unfold ilog2.
  destruct (Qle_bool _ q) eqn:E.
  - apply Qle_bool_iff in E. split; assumption.
  - split.
    + apply Qlt_le_weak. exact Hlo.
    + rewrite Z.sub_add. apply Qnot_le_lt. intros H.
      apply Qle_bool_iff in H. congruence.
Qed.

Lemma ilog2_mono p q : 0 < p -> p <= q -> (ilog2 p <= ilog2 q)%Z.
Proof.
  intros Hp Hpq.
  assert (Hq : 0 < q) by (eapply Qlt_le_trans; eassumption).
  destruct (ilog2_spec p Hp) as [P1 _].
  destruct (ilog2_spec q Hq) as [_ Q2].
  apply Z.lt_succ_r. rewrite <- Z.add_1_r.
  apply (Qpower_lt_compat_l_inv 2); [|reflexivity].
  fold (pow2 (ilog2 p)) (pow2 (ilog2 q + 1)).
  eapply Qle_lt_trans; [exact P1|]. eapply Qle_lt_trans; eassumption.
Qed.

(** ** Round to nearest integer, ties to even *)

Lemma round_half_even_bounds x :
  (Qfloor x <= round_half_even x <= Qfloor x + 1)%Z.
Proof.
  unfold round_half_even.
  destruct (Qcompare _ _); [destruct (Z.even _)| |]; lia.
Qed.

Lemma round_half_even_Z n : round_half_even (inject_Z n) = n.
Proof.
  unfold round_half_even. rewrite Qfloor_Z.
  assert (E : inject_Z n - inject_Z n == 0) by ring.
  rewrite E. reflexivity.
Qed.

Lemma round_half_even_mono x y :
  x <= y -> (round_half_even x <= round_half_even y)%Z.
Proof.
  intros Hxy.
  pose proof (Qfloor_resp_le x y Hxy) as Hf.
  pose proof (round_half_even_bounds x) as Bx.
  pose proof (round_half_even_bounds y) as By.
  destruct (Z.eq_dec (Qfloor x) (Qfloor y)) as [E|NE]; [|lia].
  unfold round_half_even. rewrite <- E.
  destruct (Qcompare (x - inject_Z (Qfloor x)) (1 # 2)) eqn:Cx;
  destruct (Qcompare (y - inject_Z (Qfloor x)) (1 # 2)) eqn:Cy;
  try (destruct (Z.even (Qfloor x))); try lia; exfalso;
  repeat match goal with
  | H : Qcompare _ _ = Eq |- _ => apply Qeq_alt in H
  | H : Qcompare _ _ = Lt |- _ => apply Qlt_alt in H
  | H : Qcompare _ _ = Gt |- _ => apply Qgt_alt in H
  end; lra.
Qed.

(** ** Rounding to binary64 is monotone *)

Lemma ulp_exp_mono p q : 0 < p -> p <= q -> (ulp_exp p <= ulp_exp q)%Z.
Proof.
  intros Hp Hpq. pose proof (ilog2_mono p q Hp Hpq). unfold ulp_exp. lia.
Qed.

Lemma Qdiv_pow2_le p q e : p <= q -> p / pow2 e <= q / pow2 e.
Proof.
  intros H. unfold Qdiv. apply Qmult_le_compat_r; [exact H|].
  apply Qlt_le_weak, Qinv_lt_0_compat, pow2_pos.
Qed.

Lemma rnd_pos_mono p q : 0 < p -> p <= q -> rnd_pos p <= rnd_pos q.
Proof.
  intros Hp Hpq.
  assert (Hq : 0 < q) by (eapply Qlt_le_trans; eassumption).
  pose proof (ulp_exp_mono p q Hp Hpq) as He.
  unfold rnd_pos.
  destruct (Z.eq_dec (ulp_exp p) (ulp_exp q)) as [E|NE].
  - rewrite E. apply Qmult_le_compat_r; [|apply Qlt_le_weak, pow2_pos].
    apply inject_Z_le, round_half_even_mono, Qdiv_pow2_le, Hpq.
  - assert (Hlt : (ulp_exp p < ulp_exp q)%Z) by lia.
    (* rnd p <= 2^(e_p + 53) <= 2^(e_q + 52) <= rnd q *)
    apply Qle_trans with (pow2 (prec + ulp_exp p)).
    + rewrite pow2_add.
      apply Qmult_le_compat_r; [|apply Qlt_le_weak, pow2_pos].
      rewrite (pow2_Z prec) by (unfold prec; lia).
      apply inject_Z_le.
      rewrite <- (round_half_even_Z (2 ^ prec)).
      apply round_half_even_mono.
      rewrite <- (pow2_Z prec) by (unfold prec; lia).
      apply Qle_shift_div_r; [apply pow2_pos|].
      rewrite <- pow2_add.
      destruct (ilog2_spec p Hp) as [_ P2].
      apply Qlt_le_weak. eapply Qlt_le_trans; [exact P2|].
      apply pow2_le. unfold ulp_exp, prec. lia.
    + apply Qle_trans with (pow2 ((prec - 1) + ulp_exp q)).
      * apply pow2_le. unfold prec. lia.
      * rewrite pow2_add.
        apply Qmult_le_compat_r; [|apply Qlt_le_weak, pow2_pos].
        rewrite (pow2_Z (prec - 1)) by (unfold prec; lia).
        apply inject_Z_le.
        rewrite <- (round_half_even_Z (2 ^ (prec - 1))).
        apply round_half_even_mono.
        rewrite <- (pow2_Z (prec - 1)) by (unfold prec; lia).
        apply Qle_shift_div_l; [apply pow2_pos|].
        rewrite <- pow2_add.
        destruct (ilog2_spec q Hq) as [Q1 _].
        eapply Qle_trans; [|exact Q1].
        apply pow2_le. unfold ulp_exp, prec, emin in *. lia.
Qed.

Lemma rnd_pos_nonneg q : 0 < q -> 0 <= rnd_pos q.
Proof.
  intros Hq. unfold rnd_pos.
  apply Qmult_le_0_compat; [|apply Qlt_le_weak, pow2_pos].
  change 0 with (inject_Z 0). apply inject_Z_le.
  rewrite <- (round_half_even_Z 0). apply round_half_even_mono.
  apply Qle_shift_div_l; [apply pow2_pos|].
  rewrite Qmult_0_l. apply Qlt_le_weak, Hq.
Qed.

Theorem rnd64_mono p q : p <= q -> rnd64 p <= rnd64 q.
Proof.
  intros Hpq. unfold rnd64.
  destruct (Qcompare p 0) eqn:Cp; destruct (Qcompare q 0) eqn:Cq;
  repeat match goal with
  | H : Qcompare _ _ = Eq |- _ => apply Qeq_alt in H
  | H : Qcompare _ _ = Lt |- _ => apply Qlt_alt in H
  | H : Qcompare _ _ = Gt |- _ => apply Qgt_alt in H
  end; rewrite ?Qred_correct; try lra.
  - apply rnd_pos_nonneg. exact Cq.
  - assert (0 <= rnd_pos (- p)) by (apply rnd_pos_nonneg; lra). lra.
  - assert (rnd_pos (- q) <= rnd_pos (- p)) by (apply rnd_pos_mono; lra). lra.
  - assert (0 <= rnd_pos (- p)) by (apply rnd_pos_nonneg; lra).
    assert (0 <= rnd_pos q) by (apply rnd_pos_nonneg; lra). lra.
  - apply rnd_pos_mono; lra.
Qed.

Lemma inject_Z_sub a b : inject_Z (a - b) = inject_Z a - inject_Z b.
Proof.
  unfold Z.sub, Qminus. now rewrite inject_Z_plus, inject_Z_opp.
Qed.

Lemma rnd64_Qeq p q : p == q -> rnd64 p == rnd64 q.
Proof.
  intros H. apply Qle_antisym; apply rnd64_mono; rewrite H; apply Qle_refl.
Qed.

Lemma rnd64_0 : rnd64 0 = 0.
Proof. reflexivity. Qed.

(** [math.pi] is a binary64 value: rounding leaves it alone. *)
Lemma rnd64_pi : rnd64 pi == pi.
Proof. apply Qeq_bool_eq. vm_compute. reflexivity. Qed.

Lemma pi_pos : 0 < pi.
Proof. reflexivity. Qed.

Lemma deg_to_rad_eq : deg_to_rad = div pi 180.
Proof. vm_compute. reflexivity. Qed.

Lemma ltb_lt x y : ltb x y = true <-> x < y.
Proof.
  unfold ltb. rewrite negb_true_iff, <- not_true_iff_false, Qle_bool_iff.
  split; [apply Qnot_le_lt | apply Qlt_not_le].
Qed.

Lemma ltb_ge x y : ltb x y = false <-> y <= x.
Proof. unfold ltb. rewrite negb_false_iff. apply Qle_bool_iff. Qed.

Lemma leb_le x y : leb x y = true <-> x <= y.
Proof. apply Qle_bool_iff. Qed.

(** ** The remainder *)

Lemma trunc_nonneg x :
  0 <= x -> inject_Z (trunc x) <= x /\ x < inject_Z (trunc x) + 1.
Proof.
  intros H. unfold trunc. apply Qle_bool_iff in H. rewrite H. split.
  - apply Qfloor_le.
  - pose proof (Qlt_floor x) as F. rewrite inject_Z_plus in F. exact F.
Qed.

Lemma trunc_neg x :
  x < 0 -> inject_Z (trunc x) - 1 < x /\ x <= inject_Z (trunc x).
Proof.
  intros H. unfold trunc.
  destruct (Qle_bool 0 x) eqn:E.
  - apply Qle_bool_iff in E. lra.
  - split.
    + pose proof (Qceiling_lt x) as C. rewrite inject_Z_sub in C. exact C.
    + apply Qle_ceiling.
Qed.

Lemma fmod_nonneg x y : 0 < y -> 0 <= x -> 0 <= fmod x y /\ fmod x y < y.
Proof.
  intros Hy Hx. unfold fmod.
  assert (Ht : 0 <= x / y) by (apply Qle_shift_div_l; lra).
  destruct (trunc_nonneg _ Ht) as [T1 T2].
  set (n := inject_Z (trunc (x / y))) in *.
  assert (Ex : x == (x / y) * y) by (field; lra).
  assert (D1 : n * y <= (x / y) * y) by (apply Qmult_le_compat_r; lra).
  assert (D2 : (x / y) * y < (n + 1) * y) by (apply Qmult_lt_compat_r; lra).
  split; lra.
Qed.

Lemma fmod_neg x y : 0 < y -> x < 0 -> - y < fmod x y /\ fmod x y <= 0.
Proof.
  intros Hy Hx. unfold fmod.
  assert (Ht : x / y < 0) by (apply Qlt_shift_div_r; lra).
  destruct (trunc_neg _ Ht) as [T1 T2].
  set (n := inject_Z (trunc (x / y))) in *.
  assert (Ex : x == (x / y) * y) by (field; lra).
  assert (D1 : (x / y) * y <= n * y) by (apply Qmult_le_compat_r; lra).
  assert (D2 : (n - 1) * y < (x / y) * y) by (apply Qmult_lt_compat_r; lra).
  split; lra.
Qed.

(** Python's remainder by a positive binary64 divisor lies between zero and
    the divisor, both ends included: a negative [fmod] is brought back by
    adding the divisor, and that sum is rounded. *)
Lemma float_rem_range x y :
  0 < y -> rnd64 y == y -> 0 <= float_rem x y /\ float_rem x y <= y.
Proof.
  intros Hy Ry. unfold float_rem.
  destruct (Qeq_bool (fmod x y) 0) eqn:Z0; simpl; [lra|].
  assert (Wy : ltb y 0 = false) by (apply ltb_ge; lra).
  rewrite Wy. simpl.
  destruct (ltb (fmod x y) 0) eqn:Neg.
  - apply ltb_lt in Neg.
    destruct (Qlt_le_dec x 0) as [Hx|Hx].
    + destruct (fmod_neg x y Hy Hx) as [F1 F2].
      unfold add. split.
      * rewrite <- rnd64_0. apply rnd64_mono. lra.
      * apply Qle_trans with (rnd64 y); [apply rnd64_mono; lra|].
        rewrite Ry. apply Qle_refl.
    + destruct (fmod_nonneg x y Hy Hx). lra.
  - apply ltb_ge in Neg.
    destruct (Qlt_le_dec x 0) as [Hx|Hx].
    + destruct (fmod_neg x y Hy Hx). lra.
    + destruct (fmod_nonneg x y Hy Hx). lra.
Qed.

(** The upper end is reached through rounding only: a remainder of a
    non-negative number stays strictly below the divisor. *)
Lemma float_rem_lt x y : 0 < y -> 0 <= x -> float_rem x y < y.
Proof.
  intros Hy Hx. unfold float_rem.
  destruct (fmod_nonneg x y Hy Hx) as [F1 F2].
  destruct (Qeq_bool (fmod x y) 0) eqn:Z0; simpl; [lra|].
  assert (Wy : ltb y 0 = false) by (apply ltb_ge; lra).
  assert (Wm : ltb (fmod x y) 0 = false) by (apply ltb_ge; lra).
  rewrite Wy, Wm. simpl. exact F2.
Qed.

(** The remainder differs from its argument by a whole multiple of the
    divisor, up to the one rounding. *)
Lemma float_rem_congruent x y :
  0 < y ->
  exists k : Z,
    float_rem x y == x - inject_Z k * y \/
    float_rem x y == rnd64 (x - inject_Z k * y).
Proof.
  intros Hy. unfold float_rem.
  destruct (Qeq_bool (fmod x y) 0) eqn:Z0; simpl.
  - apply Qeq_bool_eq in Z0. exists (trunc (x / y)). left.
    unfold fmod in Z0. lra.
  - assert (Wy : ltb y 0 = false) by (apply ltb_ge; lra).
    rewrite Wy. simpl.
    destruct (ltb (fmod x y) 0).
    + exists (trunc (x / y) - 1)%Z. right. unfold add, fmod.
      apply rnd64_Qeq. rewrite inject_Z_sub. ring.
    + exists (trunc (x / y)). left. reflexivity.
Qed.

End F64Facts.

(** The rounding of [F64] is that of the primitive binary64 operations on
    every pair of samples. *)
Lemma rnd64_agrees_with_binary64 :
  F64Check.agree_on_samples Qplus PrimFloat.add = true /\
  F64Check.agree_on_samples Qminus PrimFloat.sub = true /\
  F64Check.agree_on_samples Qmult PrimFloat.mul = true /\
  F64Check.agree_on_samples Qdiv PrimFloat.div = true /\
  F64Check.Q_of_float PrimFloat.infinity = None /\
  F64Check.Q_of_float F64Check.prim_pi = Some F64.pi /\
  F64Check.Q_of_float (PrimFloat.div F64Check.prim_pi F64Check.prim_180) = Some F64.deg_to_rad.
Proof. repeat split; vm_compute; reflexivity. Qed.

Lemma prim_heading_of_tiny_negative_is_pi :
  PrimFloat.eqb F64Check.prim_heading_of_tiny_negative F64Check.prim_pi = true.
Proof. vm_compute. reflexivity. Qed.

(** * Properties of the pipeline *)

Module BoundingBoxFacts.
Import Carla BoundingBox Stages.

Section WithCollaborators.
Context {E : Collaborators}.

(** ** Running a sequence *)

Lemma value_bind {A B} (m : M A) (k : A -> M B) h :
  value (bind m k h) = value (k (value (m h)) (store (m h))).
Proof. reflexivity. Qed.

Lemma store_bind {A B} (m : M A) (k : A -> M B) h :
  store (bind m k h) = store (k (value (m h)) (store (m h))).
Proof. reflexivity. Qed.

Lemma events_bind {A B} (m : M A) (k : A -> M B) h :
  events (bind m k h) = events (m h) ++ events (k (value (m h)) (store (m h))).
Proof. reflexivity. Qed.

(** ** The occlusion loop and the store *)

Lemma occlusion_vertex_no_draw image depth_map mrd point cs h :
  store (occlusion_vertex image depth_map mrd false point cs h) = h.
Proof.
  unfold occlusion_vertex, bind.
  destruct (F64.ltb (nth 2 point 0) mrd && F64.ltb 0 (nth 2 point 0)); simpl.
  - destruct (_ && _); simpl; reflexivity.
  - reflexivity.
Qed.

Lemma occlusion_loop_no_draw image depth_map mrd points :
  forall cs h, store (occlusion_loop image depth_map mrd false points cs h) = h.
Proof.
  induction points as [|p rest IH]; intros cs h; cbn [occlusion_loop].
  - reflexivity.
  - rewrite store_bind, IH. apply occlusion_vertex_no_draw.
Qed.

Lemma create_kitti_datapoint_value agent camera K image depth_map pt mrd h :
  value (create_kitti_datapoint agent camera K image depth_map pt mrd h) =
  match object_type agent h with
  | None => Tuple2 image None
  | Some _ =>
      if visibility_gate MIN_VISIBLE_VERTICES_FOR_RENDER
           (fst (counts agent camera K image depth_map mrd h))
           (snd (counts agent camera K image depth_map mrd h))
      then
        if F64.ltb (area agent camera K h) MIN_BBOX_AREA_IN_PX
        then Tuple3 image None None
        else Tuple3 image (Some (label agent camera K pt h))
                    (Some (camera_bbox agent camera K h))
      else Tuple3 image None None
  end.
Proof.
  unfold create_kitti_datapoint, label, area, bbox_2d, counts, heading, sensor_refpoint,
    camera_bbox, object_type, transforms_from_agent.
  destruct (contains "pedestrian" (type_id agent)); [|destruct (contains "vehicle" (type_id agent))].
  3: reflexivity.
  all: cbn [value store bind emit ret get_bounding_box_and_refpoint fst snd];
    match goal with |- context [calculate_occlusion_stats ?i ?b ?d ?m false ?h'] =>
      destruct (calculate_occlusion_stats i b d m false h') as [[nv no] st ev] end;
    cbn [value store fst snd];
    destruct (visibility_gate _ nv no); [|reflexivity];
    cbn [value store bind emit ret calc_projected_2d_bbox get_relative_rotation_y fst snd];
    match goal with |- context [F64.ltb ?a MIN_BBOX_AREA_IN_PX] =>
      destruct (F64.ltb a MIN_BBOX_AREA_IN_PX) end; reflexivity.
Qed.


Lemma calculate_occlusion_stats_no_draw image points depth_map mrd h :
  store (calculate_occlusion_stats image points depth_map mrd false h) = h.
Proof. apply occlusion_loop_no_draw. Qed.

(** [create_kitti_datapoint] leaves every array as it found it. *)
Lemma create_kitti_datapoint_store agent camera K image depth_map pt mrd h :
  store (create_kitti_datapoint agent camera K image depth_map pt mrd h) = h.
Proof.
  unfold create_kitti_datapoint, transforms_from_agent.
  destruct (contains "pedestrian" (type_id agent)); [|destruct (contains "vehicle" (type_id agent))].
  3: reflexivity.
  all: rewrite !store_bind; cbn [value store emit ret bind get_bounding_box_and_refpoint];
    match goal with |- context [calculate_occlusion_stats ?i ?b ?d ?m false ?h'] =>
      pose proof (calculate_occlusion_stats_no_draw i b d m h') as Es;
      destruct (calculate_occlusion_stats i b d m false h') as [[nv no] st ev] end;
    cbn [value store] in *; subst st;
    destruct (visibility_gate _ nv no); [|reflexivity];
    rewrite store_bind; cbn [value store calc_projected_2d_bbox bind emit ret];
    match goal with |- context [F64.ltb ?a MIN_BBOX_AREA_IN_PX] =>
      destruct (F64.ltb a MIN_BBOX_AREA_IN_PX) end; reflexivity.
Qed.


(** ** Classification *)

Lemma object_type_by_substring agent h :
  object_type agent h =
  if contains "pedestrian" (type_id agent) then Some "Pedestrian"%string
  else if contains "vehicle" (type_id agent) then Some "Car"%string
  else None.
Proof.
  unfold object_type, transforms_from_agent.
  destruct (contains "pedestrian" (type_id agent)); [reflexivity|].
  destruct (contains "vehicle" (type_id agent)); reflexivity.
Qed.

Lemma object_type_none agent h :
  object_type agent h = None <->
  contains "pedestrian" (type_id agent) = false /\
  contains "vehicle" (type_id agent) = false.
Proof.
  rewrite object_type_by_substring.
  destruct (contains "pedestrian" (type_id agent)); [intuition discriminate|].
  destruct (contains "vehicle" (type_id agent)); intuition discriminate.
Qed.

(** The whole run of an agent whose tag names no class. *)
Lemma create_kitti_datapoint_unclassified agent camera K image depth_map pt mrd h :
  object_type agent h = None ->
  create_kitti_datapoint agent camera K image depth_map pt mrd h =
  mkRun (Tuple2 image None) h
    [Logging WARNING "Could not get bounding box for agent. Object type is None" []].
Proof.
  intros H. apply object_type_none in H. destruct H as [Hp Hv].
  unfold create_kitti_datapoint, transforms_from_agent. rewrite Hp, Hv.
  reflexivity.
Qed.

(** The last thing a run rejected at the area gate does is log the area. *)
Lemma create_kitti_datapoint_area_log agent camera K image depth_map pt mrd h t :
  object_type agent h = Some t ->
  visibility_gate MIN_VISIBLE_VERTICES_FOR_RENDER
    (fst (counts agent camera K image depth_map mrd h))
    (snd (counts agent camera K image depth_map mrd h)) = true ->
  F64.ltb (area agent camera K h) MIN_BBOX_AREA_IN_PX = true ->
  exists before,
    events (create_kitti_datapoint agent camera K image depth_map pt mrd h) =
    before ++ [Logging INFO "Filtered out bbox with too low area {}" [area agent camera K h]].
Proof.
  rewrite object_type_by_substring.
  unfold create_kitti_datapoint, area, bbox_2d, counts, camera_bbox, transforms_from_agent.
  intros Ht Hg Ha.
  destruct (contains "pedestrian" (type_id agent)); [|destruct (contains "vehicle" (type_id agent))].
  3: discriminate.
  all: cbn [value store events bind emit ret get_bounding_box_and_refpoint fst snd] in *;
    match goal with |- context [calculate_occlusion_stats ?i ?b ?d ?m false ?h'] =>
      destruct (calculate_occlusion_stats i b d m false h') as [[nv no] st ev] end;
    cbn [value store events fst snd] in *; rewrite Hg;
    cbn [value store events bind emit ret calc_projected_2d_bbox logging_info fst snd] in *;
    rewrite Ha; cbn [value store events bind emit ret logging_info];
    rewrite ?app_nil_r, ?app_assoc; eexists; reflexivity.
Qed.


(** ** One vertex *)

Lemma point_in_canvas_true pos h :
  value (point_in_canvas pos h) = true <->
  (0 <= fst pos /\ fst pos < WINDOW_HEIGHT) /\ (0 <= snd pos /\ snd pos < WINDOW_WIDTH).
Proof.
  unfold point_in_canvas. cbn [value bind emit ret store].
  rewrite !andb_true_iff, !F64Facts.leb_le, !F64Facts.ltb_lt. tauto.
Qed.

Lemma in_view_dec mrd point : {in_view mrd point} + {~ in_view mrd point}.
Proof.
  unfold in_view.
  destruct (Qlt_le_dec 0 (nth 2 point 0)); [|right; lra].
  destruct (Qlt_le_dec (nth 2 point 0) mrd); [|right; lra].
  destruct (Qlt_le_dec (nth 0 point 0) 0); [right; lra|].
  destruct (Qlt_le_dec (nth 0 point 0) WINDOW_WIDTH); [|right; lra].
  destruct (Qlt_le_dec (nth 1 point 0) 0); [right; lra|].
  destruct (Qlt_le_dec (nth 1 point 0) WINDOW_HEIGHT); [|right; lra].
  left. lra.
Qed.

Lemma occlusion_vertex_out_of_view image depth_map mrd draw point cs h :
  ~ in_view mrd point ->
  occlusion_vertex image depth_map mrd draw point cs h =
  mkRun (fst cs, S (snd cs)) h
    (if F64.ltb (nth 2 point 0) mrd && F64.ltb 0 (nth 2 point 0)
     then [Point_in_canvas (nth 1 point 0, nth 0 point 0)] else []).
Proof.
  intros Hout. unfold occlusion_vertex, bind.
  destruct (F64.ltb (nth 2 point 0) mrd) eqn:E1;
    [destruct (F64.ltb 0 (nth 2 point 0)) eqn:E2|]; cbn [andb]; try reflexivity.
  pose proof (point_in_canvas_true (nth 1 point 0, nth 0 point 0) h) as C.
  destruct (value (point_in_canvas (nth 1 point 0, nth 0 point 0) h)) eqn:V.
  - exfalso. apply Hout. apply F64Facts.ltb_lt in E1, E2.
    destruct C as [C _]. specialize (C eq_refl). cbn [fst snd] in C.
    unfold in_view. tauto.
  - unfold point_in_canvas in *. cbn [value store events bind emit ret fst snd] in *.
    reflexivity.
Qed.

Lemma occlusion_vertex_in_view image depth_map mrd draw point cs h :
  in_view mrd point ->
  let pos := (nth 1 point 0, nth 0 point 0) in
  let occluded :=
    F64.ltb (depth_at (h depth_map) (pixel_index (nth 1 point 0))
               (pixel_index (nth 0 point 0))) (nth 2 point 0) in
  let paint := if occluded then OCCLUDED_VERTEX_COLOR else VISIBLE_VERTEX_COLOR in
  occlusion_vertex image depth_map mrd draw point cs h =
  mkRun (if occluded then fst cs else S (fst cs), snd cs)
    (if draw then update h image (draw_rect_pixels (h image) pos 4 paint) else h)
    ([Point_in_canvas pos; Point_is_occluded pos (nth 2 point 0) depth_map] ++
     if draw then [Draw_rect image pos 4 paint] else []).
Proof.
  intros [[D1 D2] [[X1 X2] [Y1 Y2]]] pos occluded paint.
  subst pos occluded paint.
  unfold occlusion_vertex, bind.
  apply F64Facts.ltb_lt in D1, D2. rewrite D1, D2. cbn [andb].
  assert (V : value (point_in_canvas (nth 1 point 0, nth 0 point 0) h) = true).
  { apply point_in_canvas_true. cbn [fst snd]. tauto. }
  unfold point_in_canvas in *. cbn [value store events bind emit ret fst snd] in *.
  rewrite V. unfold point_is_occluded, draw_rect.
  cbn [value store events bind emit ret fst snd app].
  destruct draw; cbn [value store events bind emit ret fst snd app];
    destruct (F64.ltb _ (nth 2 point 0)); reflexivity.
Qed.


(** ** The overlay does not reach the counts *)

Lemma occlusion_vertex_value_agree image depth_map mrd draw draw' point cs h h' :
  h depth_map = h' depth_map ->
  value (occlusion_vertex image depth_map mrd draw point cs h) =
  value (occlusion_vertex image depth_map mrd draw' point cs h').
Proof.
  intros Hd. destruct (in_view_dec mrd point) as [V|V].
  - rewrite !(occlusion_vertex_in_view _ _ _ _ _ _ _ V). cbn [value].
    rewrite Hd. reflexivity.
  - rewrite !(occlusion_vertex_out_of_view _ _ _ _ _ _ _ V). reflexivity.
Qed.

Lemma occlusion_vertex_store_other image depth_map mrd draw point cs h l :
  l <> image ->
  store (occlusion_vertex image depth_map mrd draw point cs h) l = h l.
Proof.
  intros Hl. destruct (in_view_dec mrd point) as [V|V].
  - rewrite (occlusion_vertex_in_view _ _ _ _ _ _ _ V). cbn [store].
    destruct draw; [|reflexivity].
    unfold update. apply Nat.eqb_neq in Hl. rewrite Hl. reflexivity.
  - rewrite (occlusion_vertex_out_of_view _ _ _ _ _ _ _ V). reflexivity.
Qed.

Lemma occlusion_loop_agree image depth_map mrd draw draw' points :
  image <> depth_map ->
  forall cs h h',
    h depth_map = h' depth_map ->
    value (occlusion_loop image depth_map mrd draw points cs h) =
    value (occlusion_loop image depth_map mrd draw' points cs h').
Proof.
  intros Hne. induction points as [|p rest IH]; intros cs h h' Hd; cbn [occlusion_loop].
  - reflexivity.
  - rewrite !value_bind.
    rewrite (occlusion_vertex_value_agree image depth_map mrd draw draw' p cs h h' Hd).
    apply IH.
    rewrite !occlusion_vertex_store_other by (intros C; apply Hne; symmetry; exact C).
    exact Hd.
Qed.

Lemma occlusion_loop_store_other image depth_map mrd draw points l :
  l <> image ->
  forall cs h, store (occlusion_loop image depth_map mrd draw points cs h) l = h l.
Proof.
  intros Hl. induction points as [|p rest IH]; intros cs h; cbn [occlusion_loop].
  - reflexivity.
  - rewrite store_bind, IH. apply occlusion_vertex_store_other. exact Hl.
Qed.

(** With the overlay off the counts only depend on the contents of the depth
    map, whatever else the store holds. *)
Lemma occlusion_loop_no_draw_agree image depth_map mrd points :
  forall cs h h',
    h depth_map = h' depth_map ->
    value (occlusion_loop image depth_map mrd false points cs h) =
    value (occlusion_loop image depth_map mrd false points cs h').
Proof.
  induction points as [|p rest IH]; intros cs h h' Hd; cbn [occlusion_loop].
  - reflexivity.
  - rewrite !value_bind.
    rewrite (occlusion_vertex_value_agree image depth_map mrd false false p cs h h' Hd).
    apply IH. rewrite !occlusion_vertex_no_draw. exact Hd.
Qed.

Lemma occlusion_vertex_events_no_draw image depth_map mrd point cs h :
  forallb (fun e => negb (is_draw e))
    (events (occlusion_vertex image depth_map mrd false point cs h)) = true.
Proof.
  destruct (in_view_dec mrd point) as [V|V].
  - rewrite (occlusion_vertex_in_view _ _ _ _ _ _ _ V). reflexivity.
  - rewrite (occlusion_vertex_out_of_view _ _ _ _ _ _ _ V). cbn [events].
    destruct (_ && _); reflexivity.
Qed.

Lemma occlusion_loop_events_no_draw image depth_map mrd points :
  forall cs h,
    forallb (fun e => negb (is_draw e))
      (events (occlusion_loop image depth_map mrd false points cs h)) = true.
Proof.
  induction points as [|p rest IH]; intros cs h; cbn [occlusion_loop].
  - reflexivity.
  - rewrite events_bind, forallb_app, IH, occlusion_vertex_events_no_draw. reflexivity.
Qed.

Lemma create_kitti_datapoint_events_no_draw agent camera K image depth_map pt mrd h :
  forallb (fun e => negb (is_draw e))
    (events (create_kitti_datapoint agent camera K image depth_map pt mrd h)) = true.
Proof.
  unfold create_kitti_datapoint, transforms_from_agent.
  destruct (contains "pedestrian" (type_id agent)); [|destruct (contains "vehicle" (type_id agent))].
  3: reflexivity.
  all: cbn [value store events bind emit ret get_bounding_box_and_refpoint fst snd];
    match goal with |- context [calculate_occlusion_stats ?i ?b ?d ?m false ?h'] =>
      pose proof (occlusion_loop_events_no_draw i d m b (0, 0)%nat h') as Ev;
      fold (calculate_occlusion_stats i b d m false h') in Ev;
      destruct (calculate_occlusion_stats i b d m false h') as [[nv no] st ev] end;
    cbn [value store events fst snd] in *;
    destruct (visibility_gate _ nv no);
    cbn [value store events bind emit ret calc_projected_2d_bbox logging_info
         get_relative_rotation_y fst snd];
    try match goal with |- context [F64.ltb ?a MIN_BBOX_AREA_IN_PX] =>
      destruct (F64.ltb a MIN_BBOX_AREA_IN_PX) end;
    cbn [value store events bind emit ret logging_info get_relative_rotation_y];
    rewrite !forallb_app, Ev; reflexivity.
Qed.

(** Everything but the counts is computed from the arguments alone. *)
Lemma create_kitti_datapoint_depth_only agent camera K image depth_map pt mrd h h' :
  h depth_map = h' depth_map ->
  value (create_kitti_datapoint agent camera K image depth_map pt mrd h) =
  value (create_kitti_datapoint agent camera K image depth_map pt mrd h').
Proof.
  intros Hd. rewrite !create_kitti_datapoint_value.
  assert (Ec : counts agent camera K image depth_map mrd h =
               counts agent camera K image depth_map mrd h').
  { unfold counts, calculate_occlusion_stats.
    change (camera_bbox agent camera K h') with (camera_bbox agent camera K h).
    apply occlusion_loop_no_draw_agree. exact Hd. }
  assert (El : label agent camera K pt h = label agent camera K pt h').
  { unfold label. rewrite !object_type_by_substring. reflexivity. }
  rewrite Ec, El, !object_type_by_substring. reflexivity.
Qed.


(** ** No stage is run twice *)

Lemma occlusion_loop_no_change_of_frame image depth_map mrd draw points :
  forall cs h,
    filter is_change_of_frame
      (events (occlusion_loop image depth_map mrd draw points cs h)) = [].
Proof.
  induction points as [|p rest IH]; intros cs h; cbn [occlusion_loop].
  - reflexivity.
  - rewrite events_bind, filter_app, IH, app_nil_r.
    destruct (in_view_dec mrd p) as [V|V].
    + rewrite (occlusion_vertex_in_view _ _ _ _ _ _ _ V). cbn [events].
      destruct draw; reflexivity.
    + rewrite (occlusion_vertex_out_of_view _ _ _ _ _ _ _ V). cbn [events].
      destruct (_ && _); reflexivity.
Qed.

Lemma create_kitti_datapoint_one_projection agent camera K image depth_map pt mrd h :
  (length (filter is_change_of_frame
             (events (create_kitti_datapoint agent camera K image depth_map pt mrd h)))
   <= 1)%nat.
Proof.
  unfold create_kitti_datapoint, transforms_from_agent.
  destruct (contains "pedestrian" (type_id agent)); [|destruct (contains "vehicle" (type_id agent))].
  3: cbn; lia.
  all: cbn [value store events bind emit ret get_bounding_box_and_refpoint fst snd];
    match goal with |- context [calculate_occlusion_stats ?i ?b ?d ?m false ?h'] =>
      pose proof (occlusion_loop_no_change_of_frame i d m false b (0, 0)%nat h') as Ev;
      fold (calculate_occlusion_stats i b d m false h') in Ev;
      destruct (calculate_occlusion_stats i b d m false h') as [[nv no] st ev] end;
    cbn [value store events fst snd] in *;
    destruct (visibility_gate _ nv no);
    cbn [value store events bind emit ret calc_projected_2d_bbox logging_info
         get_relative_rotation_y fst snd];
    try match goal with |- context [F64.ltb ?a MIN_BBOX_AREA_IN_PX] =>
      destruct (F64.ltb a MIN_BBOX_AREA_IN_PX) end;
    cbn [value store events bind emit ret logging_info get_relative_rotation_y];
    rewrite !filter_app, Ev; cbn; lia.
Qed.

End WithCollaborators.
End BoundingBoxFacts.

(** * The claims of the specification *)

Import Carla BoundingBox Stages BoundingBoxFacts.

Section Claims.
Context {E : Collaborators}.

(** C3.  When the agent's type tag names no class, [create_kitti_datapoint]
    returns the pair [(image, None)]; in every other outcome (rejected for
    visibility, rejected for area, accepted) it returns a triple, whose last
    two components are both [None] or the label with the projected box.  The
    length of the returned tuple is 2 in the first case and 3 in all others. *)
Theorem unclassified_returns_pair agent camera K image depth_map pt mrd h :
  let r := value (create_kitti_datapoint agent camera K image depth_map pt mrd h) in
  match object_type agent h with
  | None => r = Tuple2 image None /\ arity r = 2%nat
  | Some _ =>
      arity r = 3%nat /\
      r = if visibility_gate MIN_VISIBLE_VERTICES_FOR_RENDER
               (fst (counts agent camera K image depth_map mrd h))
               (snd (counts agent camera K image depth_map mrd h))
          then if F64.ltb (area agent camera K h) MIN_BBOX_AREA_IN_PX
               then Tuple3 image None None
               else Tuple3 image (Some (label agent camera K pt h))
                           (Some (camera_bbox agent camera K h))
          else Tuple3 image None None
  end.
Proof.
  intros r. subst r. rewrite create_kitti_datapoint_value.
  destruct (object_type agent h); [|split; reflexivity].
  split; [|reflexivity].
  destruct (visibility_gate _ _ _); [|reflexivity].
  destruct (F64.ltb _ _); reflexivity.
Qed.

(** C8.  The class is given by substring: a tag containing "pedestrian" is a
    Pedestrian, otherwise one containing "vehicle" is a Car.  For an agent
    whose tag contains neither, [create_kitti_datapoint] returns
    [(image, None)], its only call out of the module is the warning it logs
    (no transform is read, nothing is projected, no point is tested
    against the canvas or the depth map) and no array is changed. *)
Theorem unclassified_skips_geometry agent camera K image depth_map pt mrd h :
  object_type agent h =
    (if contains "pedestrian" (type_id agent) then Some "Pedestrian"%string
     else if contains "vehicle" (type_id agent) then Some "Car"%string
     else None) /\
  (contains "pedestrian" (type_id agent) = false ->
   contains "vehicle" (type_id agent) = false ->
   let r := create_kitti_datapoint agent camera K image depth_map pt mrd h in
   value r = Tuple2 image None /\
   events r = [Logging WARNING "Could not get bounding box for agent. Object type is None" []] /\
   store r = h).
Proof.
  split; [apply object_type_by_substring|].
  intros Hp Hv r. subst r.
  rewrite create_kitti_datapoint_unclassified
    by (apply object_type_none; split; assumption).
  repeat split.
Qed.


(** C1 (amended).  For an evaluation that reaches the area gate (the class is
    recognised and the visibility test passes), with [a] the area
    (ymax - ymin) * (xmax - xmin) of the projected box: when [a < 100] the
    result is [(image, None, None)] and the area is logged; when [100 <= a],
    and so when [a] is exactly 100, the label is returned.  The comparison is
    the strict [a < 100]: it rejects 99.99, and accepts 100 and 100.01. *)
Theorem area_gate_boundary agent camera K image depth_map pt mrd h t :
  object_type agent h = Some t ->
  visibility_gate MIN_VISIBLE_VERTICES_FOR_RENDER
    (fst (counts agent camera K image depth_map mrd h))
    (snd (counts agent camera K image depth_map mrd h)) = true ->
  let a := area agent camera K h in
  let r := create_kitti_datapoint agent camera K image depth_map pt mrd h in
  (a < 100 ->
     value r = Tuple3 image None None /\
     exists before,
       events r = before ++ [Logging INFO "Filtered out bbox with too low area {}" [a]]) /\
  (100 <= a ->
     value r = Tuple3 image (Some (label agent camera K pt h))
                 (Some (camera_bbox agent camera K h))) /\
  F64.ltb (F64.rnd64 (9999 # 100)) MIN_BBOX_AREA_IN_PX = true /\
  F64.ltb 100 MIN_BBOX_AREA_IN_PX = false /\
  F64.ltb (F64.rnd64 (10001 # 100)) MIN_BBOX_AREA_IN_PX = false.
Proof.
  intros Ht Hg a r. subst a r.
  split; [|split; [|split; [|split]]].
  - intros H. apply F64Facts.ltb_lt in H. split.
    + rewrite create_kitti_datapoint_value, Ht, Hg.
      unfold MIN_BBOX_AREA_IN_PX. rewrite H. reflexivity.
    + apply (create_kitti_datapoint_area_log _ _ _ _ _ _ _ _ t Ht Hg). exact H.
  - intros H. rewrite create_kitti_datapoint_value, Ht, Hg.
    apply F64Facts.ltb_ge in H. unfold MIN_BBOX_AREA_IN_PX. rewrite H. reflexivity.
  - vm_compute. reflexivity.
  - vm_compute. reflexivity.
  - vm_compute. reflexivity.
Qed.

(** C2 (amended).  A label is returned only if the class is recognised,
    num_visible >= 4, num_outside < 4 and the area is at least 100; when the
    class is recognised and either count fails its test the result is
    [(image, None, None)].  Both counts are compared with the one constant
    [MIN_VISIBLE_VERTICES_FOR_RENDER]: the test is
    [num_visible >= c > num_outside].  Raising [c] makes the test on the
    visible count stricter and the test on the outside count more lenient. *)
Theorem visibility_gate_one_constant agent camera K image depth_map pt mrd h :
  let r := value (create_kitti_datapoint agent camera K image depth_map pt mrd h) in
  let nv := fst (counts agent camera K image depth_map mrd h) in
  let no := snd (counts agent camera K image depth_map mrd h) in
  MIN_VISIBLE_VERTICES_FOR_RENDER = 4%nat /\
  (forall d, label_of r = Some d ->
     object_type agent h <> None /\ (4 <= nv)%nat /\ (no < 4)%nat /\
     100 <= area agent camera K h) /\
  (object_type agent h <> None -> ~ ((4 <= nv)%nat /\ (no < 4)%nat) ->
     r = Tuple3 image None None) /\
  (forall c v o, visibility_gate c v o = true <-> (c <= v)%nat /\ (o < c)%nat) /\
  (forall c c' v, (c <= c')%nat -> enough_visible c' v = true -> enough_visible c v = true) /\
  (forall c c' o, (c <= c')%nat -> few_outside c o = true -> few_outside c' o = true).
Proof.
  intros r nv no. subst r nv no.
  assert (G : forall c v o, visibility_gate c v o = true <-> (c <= v)%nat /\ (o < c)%nat).
  { intros c v o. unfold visibility_gate, enough_visible, few_outside.
    rewrite andb_true_iff, Nat.leb_le, Nat.ltb_lt. reflexivity. }
  split; [reflexivity|]. split; [|split; [|split; [exact G|split]]].
  - intros d. rewrite create_kitti_datapoint_value.
    destruct (object_type agent h) eqn:Ht; [|discriminate].
    destruct (visibility_gate _ _ _) eqn:Hg; [|discriminate].
    destruct (F64.ltb _ _) eqn:Ha; [discriminate|].
    intros _. apply G in Hg. apply F64Facts.ltb_ge in Ha.
    split; [discriminate|]. destruct Hg. auto.
  - intros Ht Hn. rewrite create_kitti_datapoint_value.
    destruct (object_type agent h); [|congruence].
    destruct (visibility_gate _ _ _) eqn:Hg; [|reflexivity].
    apply G in Hg. contradiction.
  - unfold enough_visible. intros c c' v Hc. rewrite !Nat.leb_le. lia.
  - unfold few_outside. intros c c' o Hc. rewrite !Nat.ltb_lt. lia.
Qed.


(** C4.  A projected corner with pixel (x, y) and
    depth d that has d <= 0 or d >= max_render_depth (70 by default), or lies
    outside the canvas [0,width) x [0,height), is counted as outside: the
    outside count goes up by one, the visible count stays, nothing is drawn,
    no array changes and the depth map is never looked up for it.  When the
    depth is out of range the canvas is not asked either. *)
Theorem out_of_view_vertex_is_outside image depth_map mrd draw point nv no h :
  let x := nth 0 point 0 in
  let y := nth 1 point 0 in
  let d := nth 2 point 0 in
  d <= 0 \/ mrd <= d \/
  ~ ((0 <= x /\ x < WINDOW_WIDTH) /\ (0 <= y /\ y < WINDOW_HEIGHT)) ->
  let r := occlusion_vertex image depth_map mrd draw point (nv, no) h in
  value r = (nv, S no) /\
  store r = h /\
  forallb (fun e => negb (is_depth_lookup e || is_draw e)) (events r) = true /\
  (d <= 0 \/ mrd <= d -> events r = []) /\
  (forall rest,
     value (occlusion_loop image depth_map mrd draw (point :: rest) (nv, no) h) =
     value (occlusion_loop image depth_map mrd draw rest (nv, S no) h)) /\
  default_max_render_depth = 70.
Proof.
  intros x y d Hout r. subst x y d r.
  assert (N : ~ in_view mrd point).
  { unfold in_view. intros [[D1 D2] [X Y]].
    destruct Hout as [H|[H|H]]; [lra | lra | apply H; split; assumption]. }
  rewrite (occlusion_vertex_out_of_view _ _ _ _ _ _ _ N). cbn [value store events fst snd].
  split; [reflexivity|]. split; [reflexivity|]. split; [|split; [|split]].
  - destruct (_ && _); reflexivity.
  - intros Hd.
    destruct (F64.ltb (nth 2 point 0) mrd) eqn:E1;
      [destruct (F64.ltb 0 (nth 2 point 0)) eqn:E2|]; cbn [andb]; try reflexivity.
    apply F64Facts.ltb_lt in E1, E2. lra.
  - intros rest. cbn [occlusion_loop]. rewrite value_bind.
    rewrite (occlusion_vertex_out_of_view _ _ _ _ _ _ _ N). reflexivity.
  - reflexivity.
Qed.

(** C5.  For a projected corner in front of the
    camera, nearer than max_render_depth and on the canvas, the depth map is
    looked up at the corner's pixel: when the stored depth is strictly less
    than the corner's depth the corner is occluded (neither count changes,
    the marker is in the occluded colour); otherwise it is visible (the
    visible count goes up by one, the marker is in the visible colour). *)
Theorem in_view_vertex_occluded_or_visible image depth_map mrd draw point nv no h :
  let x := nth 0 point 0 in
  let y := nth 1 point 0 in
  let d := nth 2 point 0 in
  0 < d -> d < mrd ->
  0 <= x -> x < WINDOW_WIDTH -> 0 <= y -> y < WINDOW_HEIGHT ->
  let stored := depth_at (h depth_map) (pixel_index y) (pixel_index x) in
  let r := occlusion_vertex image depth_map mrd draw point (nv, no) h in
  In (Point_is_occluded (y, x) d depth_map) (events r) /\
  (stored < d ->
     value r = (nv, no) /\
     (draw = true -> In (Draw_rect image (y, x) 4 OCCLUDED_VERTEX_COLOR) (events r))) /\
  (d <= stored ->
     value r = (S nv, no) /\
     (draw = true -> In (Draw_rect image (y, x) 4 VISIBLE_VERTEX_COLOR) (events r))).
Proof.
  intros x y d D1 D2 X1 X2 Y1 Y2 stored r. subst x y d stored r.
  assert (V : in_view mrd point) by (unfold in_view; tauto).
  rewrite (occlusion_vertex_in_view _ _ _ _ _ _ _ V). cbn [value store events fst snd].
  split; [right; left; reflexivity|]. split; intros Hs.
  - apply F64Facts.ltb_lt in Hs. rewrite Hs. split; [reflexivity|].
    intros ->. right. right. left. reflexivity.
  - apply F64Facts.ltb_ge in Hs. rewrite Hs. split; [reflexivity|].
    intros ->. right. right. left. reflexivity.
Qed.


Ltac destruct_rows :=
  repeat match goal with
  | H : length ?l = S _ |- _ =>
      destruct l; [discriminate H|]; cbn [length] in H; apply Nat.succ_inj in H
  | H : length ?l = 0%nat |- _ =>
      destruct l; [clear H|discriminate H]
  end.

(** C6.  [get_bounding_box_and_refpoint] hands the 8 corner rows followed by
    the row (0, 0, 0, 1) of the local origin to the change of frame in one
    call, 9 points in all.  Each of the 9 sensor-frame columns (x, y, z) is
    reordered to (y, -z, x) and multiplied by the calibration matrix; the
    first two products are divided by the third, which is kept as the depth.
    The first 8 results are the projected box and the 9th the projected
    reference point; the sensor-frame points are split the same way. *)
Theorem nine_points_projected_in_one_batch agent camera k0 k1 k2 X Y Z h :
  length (create_bb_points agent) = 8%nat ->
  length X = 9%nat -> length Y = 9%nat -> length Z = 9%nat ->
  let cords := create_bb_points agent ++ [[0; 0; 0; 1]] in
  firstn 3 (vehicle_to_sensor cords agent camera) = [X; Y; Z] ->
  let K := [k0; k1; k2] in
  let points := zip3 X Y Z in
  let r := get_bounding_box_and_refpoint agent camera K h in
  length cords = 9%nat /\
  events r = [Create_bb_points agent; Vehicle_to_sensor cords agent] /\
  value r =
    ((map (pinhole_projection K) (firstn 8 points),
      pinhole_projection K (nth 8 points (0, 0, 0))),
     (map coordinates (firstn 8 points),
      coordinates (nth 8 points (0, 0, 0)))).
Proof.
  intros Hc HX HY HZ cords Hs K points r. subst cords K points r.
  split; [rewrite length_app, Hc; reflexivity|].
  split; [reflexivity|].
  unfold get_bounding_box_and_refpoint.
  cbn [value bind emit ret store]. unfold Np.first_rows, Np.vstack. rewrite Hs.
  destruct_rows. reflexivity.
Qed.

(** C7 (amended).  The heading stored in the label of an accepted agent is
    radians(agent_yaw - reference_yaw) reduced modulo pi by Python's float
    remainder: it differs from the raw angle by a whole multiple of pi, up
    to the rounding of one addition.  It is never negative and never above
    pi, so it lies in the closed interval from 0 to pi.  It is strictly
    below pi whenever the raw angle is not negative.  For agent_yaw = 10
    and reference_yaw = 370 the heading is 0. *)
Theorem heading_between_zero_and_pi agent camera K image depth_map pt mrd h d :
  label_of (value (create_kitti_datapoint agent camera K image depth_map pt mrd h)) = Some d ->
  let raw := F64.radians (F64.sub (yaw (rotation (transform agent))) (yaw (rotation pt))) in
  exists heading,
    kd_rotation_y d = Some heading /\
    heading = F64.float_rem raw F64.pi /\
    0 <= heading /\ heading <= F64.pi /\
    (0 <= raw -> heading < F64.pi) /\
    (exists k : Z,
       heading == raw - inject_Z k * F64.pi \/
       heading == F64.rnd64 (raw - inject_Z k * F64.pi)) /\
    F64.float_rem (F64.radians (F64.sub 10 370)) F64.pi = 0.
Proof.
  rewrite create_kitti_datapoint_value.
  destruct (object_type agent h); [|discriminate].
  destruct (visibility_gate _ _ _); [|discriminate].
  destruct (F64.ltb _ _); [discriminate|].
  cbn [label_of]. intros [= <-].
  eexists. split; [reflexivity|]. split; [reflexivity|].
  pose proof (F64Facts.float_rem_range
                (F64.radians (F64.sub (yaw (rotation (transform agent))) (yaw (rotation pt))))
                F64.pi F64Facts.pi_pos F64Facts.rnd64_pi) as [R0 R1].
  split; [exact R0|]. split; [exact R1|]. split; [|split].
  - apply F64Facts.float_rem_lt. exact F64Facts.pi_pos.
  - apply F64Facts.float_rem_congruent. exact F64Facts.pi_pos.
  - vm_compute. reflexivity.
Qed.

(** C9.  When the image and the depth map are different arrays,
    [calculate_occlusion_stats] leaves the depth map as it was, with the
    overlay on or off, and returns the same two counts either way.  With the
    overlay off it changes no array at all.  [create_kitti_datapoint] runs
    it with the overlay off: it draws nothing and changes no array. *)
Theorem overlay_never_changes_counts image depth_map mrd points h :
  image <> depth_map ->
  (forall draw,
     store (calculate_occlusion_stats image points depth_map mrd draw h) depth_map =
     h depth_map) /\
  value (calculate_occlusion_stats image points depth_map mrd true h) =
  value (calculate_occlusion_stats image points depth_map mrd false h) /\
  store (calculate_occlusion_stats image points depth_map mrd false h) = h /\
  (forall agent camera K pt,
     let r := create_kitti_datapoint agent camera K image depth_map pt mrd h in
     store r = h /\
     forallb (fun e => negb (is_draw e)) (events r) = true /\
     counts agent camera K image depth_map mrd h =
     value (calculate_occlusion_stats image (camera_bbox agent camera K h)
              depth_map mrd false h)).
Proof.
  intros Hne. split; [|split; [|split]].
  - intros draw. apply occlusion_loop_store_other.
    intros C. apply Hne. symmetry. exact C.
  - apply occlusion_loop_agree; [exact Hne | reflexivity].
  - apply calculate_occlusion_stats_no_draw.
  - intros agent camera K pt r. subst r. split; [|split].
    + apply create_kitti_datapoint_store.
    + apply create_kitti_datapoint_events_no_draw.
    + reflexivity.
Qed.

(** C10.  An evaluation changes no array, so evaluating again with the same
    arguments right after gives the same result, field for field, and makes
    the same calls; and the result is the same from any store whose depth
    map holds the same values.  Nothing is kept between calls and nothing
    is tried twice: each collaborator stage is entered once. *)
Theorem evaluation_is_repeatable agent camera K image depth_map pt mrd h :
  let first := create_kitti_datapoint agent camera K image depth_map pt mrd h in
  let second := create_kitti_datapoint agent camera K image depth_map pt mrd (store first) in
  value second = value first /\
  events second = events first /\
  store second = h /\
  (forall h', h' depth_map = h depth_map ->
     value (create_kitti_datapoint agent camera K image depth_map pt mrd h') = value first) /\
  (length (filter is_change_of_frame (events first)) <= 1)%nat.
Proof.
  intros first second. subst first second.
  rewrite create_kitti_datapoint_store.
  split; [reflexivity|]. split; [reflexivity|].
  split; [apply create_kitti_datapoint_store|]. split.
  - intros h' Hd. apply create_kitti_datapoint_depth_only. exact Hd.
  - apply create_kitti_datapoint_one_projection.
Qed.

End Claims.

(** * Concrete runs *)

Import Fixture.

(** C1, as stated, fails: a box that projects to (45, 45, 55, 55), of area
    exactly 100, is accepted and its label returned. *)
Lemma area_exactly_100_accepted :
  area (E := rig) (car 3 0) tt calibration (scene far) = 100 /\
  exists d b,
    value (run_datapoint (car 3 0) 0 far) = Tuple3 image (Some d) (Some b) /\
    kd_bbox d = Some (45, 45, 55, 55).
Proof.
  split; [vm_compute; reflexivity|].
  eexists. eexists. split; vm_compute; reflexivity.
Qed.

Lemma area_gate_boundary_witness :
  (100 <= area (E := rig) (car 3 0) tt calibration (scene far) ->
   value (run_datapoint (car 3 0) 0 far) =
   Tuple3 image (Some (label (E := rig) (car 3 0) tt calibration (pose 0 0) (scene far)))
     (Some (camera_bbox (E := rig) (car 3 0) tt calibration (scene far)))) /\
  (area (E := rig) (car 5 0) tt calibration (scene far) < 100 ->
   value (run_datapoint (car 5 0) 0 far) = Tuple3 image None None).
Proof.
  split.
  - apply (area_gate_boundary (E := rig) (car 3 0) tt calibration image depth_map
             (pose 0 0) default_max_render_depth (scene far) "Car");
      vm_compute; reflexivity.
  - intros H.
    apply (area_gate_boundary (E := rig) (car 5 0) tt calibration image depth_map
             (pose 0 0) default_max_render_depth (scene far) "Car");
      [vm_compute; reflexivity | vm_compute; reflexivity | exact H].
Defined.

(** C2, as stated, fails: raising the shared constant does not tighten the
    bound on the outside count, it relaxes it.  At 4 an outside count of 4
    fails the test, at 5 it passes; and a box with 3 visible corners and 2
    outside is rejected at 2 and accepted at 3. *)
Lemma raising_constant_relaxes_outside_test :
  few_outside 4 4 = false /\ few_outside 5 4 = true /\
  visibility_gate 2 3 2 = false /\ visibility_gate 3 3 2 = true /\
  ~ (forall c c' o, (c <= c')%nat -> few_outside c' o = true -> few_outside c o = true).
Proof.
  repeat split.
  intros H. specialize (H 4%nat 5%nat 4%nat (Nat.le_succ_diag_r 4) eq_refl). discriminate H.
Qed.

(** A car behind a wall (the depth map holds 1 everywhere) has no visible
    corner and gets no label; the same car in the open is labelled, with at
    least 4 visible corners and fewer than 4 outside. *)
Lemma visibility_gate_one_constant_witness :
  value (run_datapoint (car 3 0) 0 1) = Tuple3 image None None /\
  (4 <= fst (counts (E := rig) (car 3 0) tt calibration image depth_map
               default_max_render_depth (scene far)))%nat /\
  (snd (counts (E := rig) (car 3 0) tt calibration image depth_map
          default_max_render_depth (scene far)) < 4)%nat.
Proof.
  split.
  - apply (proj1 (proj2 (proj2
      (visibility_gate_one_constant (E := rig) (car 3 0) tt calibration image depth_map
         (pose 0 0) default_max_render_depth (scene 1))))).
    + vm_compute. discriminate.
    + vm_compute. intros [H _]. lia.
  - destruct (proj1 (proj2
      (visibility_gate_one_constant (E := rig) (car 3 0) tt calibration image depth_map
         (pose 0 0) default_max_render_depth (scene far)))
      (label (E := rig) (car 3 0) tt calibration (pose 0 0) (scene far)))
      as (_ & Hv & Ho & _).
    + vm_compute. reflexivity.
    + split; assumption.
Defined.

(** A corner behind the camera, one at the render limit and one off the
    canvas each add one to the outside count. *)
Lemma out_of_view_vertex_witness :
  value (occlusion_vertex (E := rig) image depth_map 70 true [50; 50; -1] (0, 0)%nat (scene 5))
    = (0, 1)%nat /\
  value (occlusion_vertex (E := rig) image depth_map 70 true [50; 50; 70] (0, 0)%nat (scene 5))
    = (0, 1)%nat /\
  value (occlusion_vertex (E := rig) image depth_map 70 true [100; 50; 4] (0, 0)%nat (scene 5))
    = (0, 1)%nat.
Proof.
  split; [|split].
  - apply (out_of_view_vertex_is_outside (E := rig) image depth_map 70 true
             [50; 50; -1] 0 0 (scene 5)).
    left. cbv [nth]. lra.
  - apply (out_of_view_vertex_is_outside (E := rig) image depth_map 70 true
             [50; 50; 70] 0 0 (scene 5)).
    right. left. cbv [nth]. lra.
  - apply (out_of_view_vertex_is_outside (E := rig) image depth_map 70 true
             [100; 50; 4] 0 0 (scene 5)).
    right. right. cbv [nth WINDOW_WIDTH WINDOW_HEIGHT rig]. lra.
Defined.

(** With a scene depth of 5 at the pixel, a corner at depth 6 is occluded
    and a corner at depth 4 is visible. *)
Lemma in_view_vertex_witness :
  value (occlusion_vertex (E := rig) image depth_map 70 false [50; 50; 6] (0, 0)%nat (scene 5))
    = (0, 0)%nat /\
  value (occlusion_vertex (E := rig) image depth_map 70 false [50; 50; 4] (0, 0)%nat (scene 5))
    = (1, 0)%nat.
Proof.
  split.
  - apply (proj1 (proj2
      (in_view_vertex_occluded_or_visible (E := rig) image depth_map 70 false
         [50; 50; 6] 0 0 (scene 5)
         ltac:(cbv [nth]; lra) ltac:(cbv [nth]; lra)
         ltac:(cbv [nth]; lra) ltac:(cbv [nth WINDOW_WIDTH rig]; lra)
         ltac:(cbv [nth]; lra) ltac:(cbv [nth WINDOW_HEIGHT rig]; lra)))).
    vm_compute. reflexivity.
  - apply (proj2 (proj2
      (in_view_vertex_occluded_or_visible (E := rig) image depth_map 70 false
         [50; 50; 4] 0 0 (scene 5)
         ltac:(cbv [nth]; lra) ltac:(cbv [nth]; lra)
         ltac:(cbv [nth]; lra) ltac:(cbv [nth WINDOW_WIDTH rig]; lra)
         ltac:(cbv [nth]; lra) ltac:(cbv [nth WINDOW_HEIGHT rig]; lra)))).
    vm_compute. discriminate.
Defined.

(** The car 3 ahead: corners at depth 2 and 4 project 5 and 2.5 pixels off
    the principal point (50, 50); the ninth point is the box centre. *)
Lemma nine_points_witness :
  value (get_bounding_box_and_refpoint (E := rig) (car 3 0) tt calibration (scene far)) =
  (([[105 # 2; 105 # 2; 4]; [55; 55; 2]; [45; 55; 2]; [95 # 2; 105 # 2; 4];
     [105 # 2; 95 # 2; 4]; [55; 45; 2]; [45; 45; 2]; [95 # 2; 95 # 2; 4]],
    [50; 50; 3]),
   ([[4; 1; -1]; [2; 1; -1]; [2; -1; -1]; [4; -1; -1];
     [4; 1; 1]; [2; 1; 1]; [2; -1; 1]; [4; -1; 1]],
    [3; 0; 0])).
Proof.
  refine (eq_trans (proj2 (proj2
    (nine_points_projected_in_one_batch (E := rig) (car 3 0) tt
       [10; 0; 50] [0; 10; 50] [0; 0; 1]
       [4; 2; 2; 4; 4; 2; 2; 4; 3] [1; 1; -1; -1; 1; 1; -1; -1; 0]
       [-1; -1; -1; -1; 1; 1; 1; 1; 0] (scene far)
       eq_refl eq_refl eq_refl eq_refl ltac:(vm_compute; reflexivity)))) _).
  vm_compute. reflexivity.
Defined.

(** C7, as stated, fails: with the agent's yaw at 0 and the reference yaw at
    2^-100 degrees the raw angle is a tiny negative number, the remainder
    adds pi to it, the sum rounds to pi, and the heading stored in the label
    is pi itself, which is not in [0, pi). *)
Lemma heading_reaches_pi :
  exists d heading,
    label_of (value (run_datapoint (car 3 0) (F64.pow2 (-100)) far)) = Some d /\
    kd_rotation_y d = Some heading /\
    heading = F64.pi /\
    ~ heading < F64.pi.
Proof.
  eexists. eexists. split; [vm_compute; reflexivity|].
  split; [reflexivity|]. split; [reflexivity|].
  apply Qle_not_lt, Qle_refl.
Qed.

(** Agent yaw 10, reference yaw 370: the heading of the label is 0. *)
Lemma heading_witness :
  exists heading,
    kd_rotation_y (label (E := rig) (car 3 10) tt calibration (pose 0 370) (scene far))
      = Some heading /\
    heading = 0 /\ 0 <= heading /\ heading <= F64.pi.
Proof.
  destruct (heading_between_zero_and_pi (E := rig) (car 3 10) tt calibration image depth_map
              (pose 0 370) default_max_render_depth (scene far)
              (label (E := rig) (car 3 10) tt calibration (pose 0 370) (scene far))
              ltac:(vm_compute; reflexivity))
    as (r & Hr & Hv & H0 & H1 & _).
  exists r. split; [exact Hr|]. split; [|split; assumption].
  rewrite Hv. vm_compute. reflexivity.
Defined.

(** A prop is no pedestrian and no vehicle: one warning, the pair, nothing else. *)
Lemma unclassified_witness :
  value (run_datapoint prop 0 far) = Tuple2 image None /\
  events (run_datapoint prop 0 far) =
    [Logging WARNING "Could not get bounding box for agent. Object type is None" []].
Proof.
  destruct (proj2 (unclassified_skips_geometry (E := rig) prop tt calibration image depth_map
                     (pose 0 0) default_max_render_depth (scene far)) eq_refl eq_refl)
    as (Hv & He & _).
  split; assumption.
Defined.

(** Two corners, one visible and one occluded: the counts with the overlay
    on are those with the overlay off, and the depth map is left alone. *)
Lemma overlay_witness :
  value (calculate_occlusion_stats (E := rig) image [[50; 50; 4]; [20; 30; 6]] depth_map 70
           true (scene 5)) =
  value (calculate_occlusion_stats (E := rig) image [[50; 50; 4]; [20; 30; 6]] depth_map 70
           false (scene 5)) /\
  store (calculate_occlusion_stats (E := rig) image [[50; 50; 4]; [20; 30; 6]] depth_map 70
           true (scene 5)) depth_map = scene 5 depth_map.
Proof.
  destruct (overlay_never_changes_counts (E := rig) image depth_map 70
              [[50; 50; 4]; [20; 30; 6]] (scene 5) (fun e => Nat.neq_0_succ 0 e))
    as (Hs & Hv & _).
  split; [exact Hv | exact (Hs true)].
Defined.

(** The same car evaluated twice, and once more against a store with a
    different image: the same triple each time. *)
Lemma evaluation_is_repeatable_witness :
  value (create_kitti_datapoint (E := rig) (car 3 0) tt calibration image depth_map (pose 0 0)
           default_max_render_depth
           (store (run_datapoint (car 3 0) 0 far))) =
  value (run_datapoint (car 3 0) 0 far) /\
  value (create_kitti_datapoint (E := rig) (car 3 0) tt calibration image depth_map (pose 0 0)
           default_max_render_depth
           (update (scene far) image (fun _ _ => 255))) =
  value (run_datapoint (car 3 0) 0 far).
Proof.
  destruct (evaluation_is_repeatable (E := rig) (car 3 0) tt calibration image depth_map
              (pose 0 0) default_max_render_depth (scene far))
    as (H1 & _ & _ & H4 & _).
  split; [exact H1|]. apply H4. reflexivity.
Defined.

(** * Further properties of the arithmetic *)

Module F64More.
Import F64 F64Facts.

Lemma rnd64_nonneg q : 0 <= q -> 0 <= rnd64 q.
Proof. intros H. rewrite <- rnd64_0. apply rnd64_mono. exact H. Qed.

Lemma rnd64_nonpos q : q <= 0 -> rnd64 q <= 0.
Proof. intros H. rewrite <- rnd64_0. apply rnd64_mono. exact H. Qed.

Lemma rnd_pos_Qeq p q : 0 < p -> p == q -> rnd_pos p == rnd_pos q.
Proof.
  intros Hp Hpq. apply Qle_antisym; apply rnd_pos_mono; lra.
Qed.

(** Rounding to nearest is symmetric about zero. *)
Lemma rnd64_opp q : rnd64 (- q) == - rnd64 q.
Proof.
  unfold rnd64.
  destruct (Qcompare q 0) eqn:C; destruct (Qcompare (- q) 0) eqn:C';
  repeat match goal with
  | H : Qcompare _ _ = Eq |- _ => apply Qeq_alt in H
  | H : Qcompare _ _ = Lt |- _ => apply Qlt_alt in H
  | H : Qcompare _ _ = Gt |- _ => apply Qgt_alt in H
  end; rewrite ?Qred_correct; try lra.
  assert (R : rnd_pos (- - q) == rnd_pos q) by (apply rnd_pos_Qeq; lra).
  rewrite R. reflexivity.
Qed.

Lemma sub_antisym x y : sub x y == - sub y x.
Proof.
  unfold sub. rewrite <- rnd64_opp. apply rnd64_Qeq. ring.
Qed.

Lemma mul_opp_l x y : mul (- x) y == - mul x y.
Proof.
  unfold mul. rewrite <- rnd64_opp. apply rnd64_Qeq. ring.
Qed.

Lemma mul_Qeq x x' y : x == x' -> mul x y == mul x' y.
Proof. intros H. unfold mul. apply rnd64_Qeq. rewrite H. reflexivity. Qed.

Lemma mul_comm x y : mul x y == mul y x.
Proof. unfold mul. apply rnd64_Qeq. ring. Qed.

Lemma ltb_Qeq x x' y : x == x' -> ltb x y = ltb x' y.
Proof. intros H. unfold ltb. rewrite H. reflexivity. Qed.

Lemma float_rem_of_zero x y : x == 0 -> 0 < y -> float_rem x y = 0.
Proof.
  intros Hx Hy. unfold float_rem.
  assert (F : fmod x y == 0).
  { unfold fmod, trunc.
    assert (D : x / y == 0) by (rewrite Hx; field; lra).
    assert (L : Qle_bool 0 (x / y) = true) by (apply Qle_bool_iff; lra).
    assert (F : Qfloor (x / y) = 0%Z) by (rewrite (Qfloor_comp _ _ D); reflexivity).
    rewrite L, F. change (inject_Z 0) with 0. lra. }
  apply Qeq_eq_bool in F. rewrite F. reflexivity.
Qed.

End F64More.

(** * Properties of the array operations *)

Module NpFacts.
Import Stages.

Lemma transpose_three (a b c : Np.vector) :
  Np.transpose [a; b; c] = map coordinates (zip3 a b c).
Proof.
  cbn [Np.transpose]. revert b c.
  induction a as [|u a IH]; intros b c; [reflexivity|].
  destruct b as [|v b]; [reflexivity|].
  destruct c as [|w c]; [reflexivity|].
  cbn [map Np.zip_with zip3 coordinates]. f_equal. apply IH.
Qed.

Lemma zip3_map {A} (f g k : A -> F64.float) (l : list A) :
  zip3 (map f l) (map g l) (map k l) = map (fun t => (f t, g t, k t)) l.
Proof. induction l as [|t l IH]; cbn [map zip3]; [reflexivity | now rewrite IH]. Qed.

Lemma zip3_reordered (xs ys zs : Np.vector) :
  zip3 ys (map F64.neg zs) xs =
  map (fun p => let '(px, py, pz) := p in (py, F64.neg pz, px)) (zip3 xs ys zs).
Proof.
  revert ys zs. induction xs as [|u xs IH]; intros ys zs.
  - destruct ys; [reflexivity|]. destruct zs; reflexivity.
  - destruct ys as [|v ys]; [reflexivity|].
    destruct zs as [|w zs]; [reflexivity|].
    cbn [map zip3]. f_equal. apply IH.
Qed.

Lemma col_map {A} (j : nat) (g : A -> Np.vector) (l : list A) :
  Np.col j (map g l) = map (fun t => [nth j (g t) 0]) l.
Proof. unfold Np.col. apply map_map. Qed.

Lemma divide_map {A} (a b : A -> Np.vector) (l : list A) :
  Np.divide (map a l) (map b l) = map (fun t => Np.zip_with F64.div (a t) (b t)) l.
Proof.
  unfold Np.divide. induction l as [|t l IH]; cbn [map Np.zip_with];
    [reflexivity | now rewrite IH].
Qed.

Lemma concatenate1_three_map {A} (a b c : A -> Np.vector) (l : list A) :
  Np.concatenate1 [map a l; map b l; map c l] = map (fun t => a t ++ b t ++ c t) l.
Proof.
  cbn [Np.concatenate1]. induction l as [|t l IH]; cbn [map Np.zip_with];
    [reflexivity | now rewrite IH].
Qed.

Lemma removelast_map {A B} (f : A -> B) (l : list A) :
  removelast (map f l) = map f (removelast l).
Proof.
  induction l as [|t l IH]; [reflexivity|].
  destruct l as [|t' l]; [reflexivity|].
  cbn [map removelast] in *. now rewrite IH.
Qed.

Lemma last_map {A B} (f : A -> B) (l : list A) (d : A) (d' : B) :
  l <> [] -> last (map f l) d' = f (last l d).
Proof.
  induction l as [|t l IH]; [congruence|]. intros _.
  destruct l as [|t' l]; [reflexivity|].
  cbn [map last] in *. apply IH. discriminate.
Qed.

End NpFacts.

(** * Further properties of the occlusion loop *)

Module OcclusionFacts.
Import Verdicts.

Section WithCollaborators.
Context {E : Collaborators}.

Lemma in_view_b_true mrd point : in_view_b mrd point = true <-> in_view mrd point.
Proof.
  unfold in_view_b, in_view.
  rewrite !andb_true_iff, !F64Facts.leb_le, !F64Facts.ltb_lt. tauto.
Qed.

Lemma in_view_b_false mrd point : in_view_b mrd point = false <-> ~ in_view mrd point.
Proof.
  rewrite <- in_view_b_true. destruct (in_view_b mrd point); intuition congruence.
Qed.

(** What one turn of the loop returns, by the two tests. *)
Lemma occlusion_vertex_value image depth_map mrd draw point cs h :
  value (occlusion_vertex image depth_map mrd draw point cs h) =
  if in_view_b mrd point
  then (if occluded_b (h depth_map) point then fst cs else S (fst cs), snd cs)
  else (fst cs, S (snd cs)).
Proof.
  destruct (in_view_b mrd point) eqn:V.
  - apply in_view_b_true in V.
    rewrite (occlusion_vertex_in_view _ _ _ _ _ _ _ V). reflexivity.
  - apply in_view_b_false in V.
    rewrite (occlusion_vertex_out_of_view _ _ _ _ _ _ _ V). reflexivity.
Qed.

Lemma occlusion_loop_counts_no_draw image depth_map mrd points :
  forall cs h,
    value (occlusion_loop image depth_map mrd false points cs h) =
    ((fst cs + count (visible_b (h depth_map) mrd) points)%nat,
     (snd cs + count (outside_b mrd) points)%nat).
Proof.
  unfold count.
  induction points as [|p rest IH]; intros cs h; cbn [occlusion_loop].
  - cbn. rewrite !Nat.add_0_r. destruct cs; reflexivity.
  - rewrite value_bind, IH, occlusion_vertex_no_draw, occlusion_vertex_value.
    cbn [filter]. unfold visible_b, outside_b.
    destruct (in_view_b mrd p); cbn [andb negb fst snd length].
    + destruct (occluded_b (h depth_map) p); cbn [negb fst snd length];
        f_equal; lia.
    + f_equal; lia.
Qed.

Lemma occlusion_loop_outside image depth_map mrd draw points :
  forall cs h,
    snd (value (occlusion_loop image depth_map mrd draw points cs h)) =
    (snd cs + count (outside_b mrd) points)%nat.
Proof.
  unfold count.
  induction points as [|p rest IH]; intros cs h; cbn [occlusion_loop].
  - cbn. lia.
  - rewrite value_bind, IH, occlusion_vertex_value.
    cbn [filter]. unfold outside_b.
    destruct (in_view_b mrd p); cbn [negb fst snd length]; lia.
Qed.

Lemma occlusion_loop_total image depth_map mrd draw points :
  forall cs h,
    let r := value (occlusion_loop image depth_map mrd draw points cs h) in
    (fst cs <= fst r)%nat /\ (fst r + snd r <= fst cs + snd cs + length points)%nat.
Proof.
  induction points as [|p rest IH]; intros cs h; cbn [occlusion_loop].
  - cbn. lia.
  - cbn zeta. rewrite value_bind.
    specialize (IH (value (occlusion_vertex image depth_map mrd draw p cs h))
                   (store (occlusion_vertex image depth_map mrd draw p cs h))).
    cbn zeta in IH. rewrite occlusion_vertex_value in IH |- *.
    destruct (in_view_b mrd p); [destruct (occluded_b (h depth_map) p)|];
      cbn [fst snd length] in *; lia.
Qed.

Lemma count_app f (l l' : Np.matrix) : count f (l ++ l') = (count f l + count f l')%nat.
Proof. unfold count. rewrite filter_app, length_app. reflexivity. Qed.

Lemma count_permutation f (l l' : Np.matrix) : Permutation l l' -> count f l = count f l'.
Proof.
  unfold count.
  induction 1 as [|a l l' H IH|a b l|l l' l'' H1 IH1 H2 IH2]; cbn [filter].
  - reflexivity.
  - destruct (f a); cbn [length]; congruence.
  - destruct (f a); destruct (f b); reflexivity.
  - congruence.
Qed.

Lemma count_le_length f (l : Np.matrix) : (count f l <= length l)%nat.
Proof. unfold count. apply filter_length_le. Qed.


Lemma count_in_view_outside mrd (points : Np.matrix) :
  (count (in_view_b mrd) points + count (outside_b mrd) points)%nat = length points.
Proof.
  unfold count, outside_b. induction points as [|p rest IH]; cbn [filter length].
  - reflexivity.
  - destruct (in_view_b mrd p); cbn [negb length]; lia.
Qed.

(** The calls one turn of the loop makes. *)
Lemma occlusion_vertex_events image depth_map mrd draw point cs h :
  let pos := (nth 1 point 0, nth 0 point 0) in
  events (occlusion_vertex image depth_map mrd draw point cs h) =
  if in_view_b mrd point
  then [Point_in_canvas pos; Point_is_occluded pos (nth 2 point 0) depth_map] ++
       (if draw
        then [Draw_rect image pos 4
                (if occluded_b (h depth_map) point
                 then OCCLUDED_VERTEX_COLOR else VISIBLE_VERTEX_COLOR)]
        else [])
  else if F64.ltb (nth 2 point 0) mrd && F64.ltb 0 (nth 2 point 0)
       then [Point_in_canvas pos] else [].
Proof.
  intros pos. subst pos. destruct (in_view_b mrd point) eqn:V.
  - apply in_view_b_true in V.
    rewrite (occlusion_vertex_in_view _ _ _ _ _ _ _ V). reflexivity.
  - apply in_view_b_false in V.
    rewrite (occlusion_vertex_out_of_view _ _ _ _ _ _ _ V). reflexivity.
Qed.

Lemma occlusion_loop_lookups image depth_map mrd draw points :
  forall cs h,
    length (filter is_depth_lookup
              (events (occlusion_loop image depth_map mrd draw points cs h))) =
    count (in_view_b mrd) points.
Proof.
  unfold count.
  induction points as [|p rest IH]; intros cs h; cbn [occlusion_loop].
  - reflexivity.
  - rewrite events_bind, filter_app, length_app, IH, occlusion_vertex_events.
    cbn [filter]. destruct (in_view_b mrd p).
    + destruct draw; reflexivity.
    + destruct (_ && _); reflexivity.
Qed.

Lemma occlusion_loop_draws image depth_map mrd draw points :
  forall cs h,
    length (filter is_draw
              (events (occlusion_loop image depth_map mrd draw points cs h))) =
    (if draw then count (in_view_b mrd) points else 0%nat) /\
    filter is_draw (events (occlusion_loop image depth_map mrd draw points cs h)) =
    filter (draws_on image) (events (occlusion_loop image depth_map mrd draw points cs h)).
Proof.
  unfold count.
  induction points as [|p rest IH]; intros cs h; cbn [occlusion_loop].
  - destruct draw; split; reflexivity.
  - rewrite events_bind, !filter_app, length_app.
    destruct (IH (value (occlusion_vertex image depth_map mrd draw p cs h))
                 (store (occlusion_vertex image depth_map mrd draw p cs h))) as [IH1 IH2].
    rewrite IH1, IH2, occlusion_vertex_events.
    cbn [filter]. destruct (in_view_b mrd p).
    + destruct draw; cbn [app filter is_draw draws_on length]; rewrite ?Nat.eqb_refl;
        split; reflexivity.
    + destruct (_ && _); destruct draw; split; reflexivity.
Qed.

Lemma occlusion_loop_all_out image depth_map mrd draw points :
  Forall (fun p => nth 2 p 0 <= 0 \/ mrd <= nth 2 p 0) points ->
  forall cs h,
    occlusion_loop image depth_map mrd draw points cs h =
    mkRun (fst cs, (snd cs + length points)%nat) h [].
Proof.
  induction 1 as [|p rest Hp Hrest IH]; intros cs h; cbn [occlusion_loop].
  - cbn. rewrite Nat.add_0_r. destruct cs; reflexivity.
  - assert (N : ~ in_view mrd p) by (unfold in_view; intros [[D1 D2] _]; lra).
    unfold bind. rewrite (occlusion_vertex_out_of_view _ _ _ _ _ _ _ N).
    cbn [value store events]. rewrite IH. cbn [value store events fst snd length].
    assert (T : F64.ltb (nth 2 p 0) mrd && F64.ltb 0 (nth 2 p 0) = false).
    { apply andb_false_iff. destruct Hp as [Hp|Hp].
      - right. apply F64Facts.ltb_ge. exact Hp.
      - left. apply F64Facts.ltb_ge. exact Hp. }
    rewrite T. cbn [app]. f_equal. f_equal. lia.
Qed.


Lemma count_monotone (f g : Np.vector -> bool) (l : Np.matrix) :
  (forall p, f p = true -> g p = true) -> (count f l <= count g l)%nat.
Proof.
  intros H. unfold count. induction l as [|p rest IH]; cbn [filter].
  - apply Nat.le_refl.
  - specialize (H p). destruct (f p); destruct (g p); cbn [length];
      first [lia | discriminate (H eq_refl)].
Qed.

Lemma in_view_b_wider mrd mrd' point :
  mrd <= mrd' -> in_view_b mrd point = true -> in_view_b mrd' point = true.
Proof.
  intros Hm. rewrite !in_view_b_true. unfold in_view. intros [[D1 D2] R].
  split; [split; lra | exact R].
Qed.

(** ** Substrings *)

Lemma prefix_iff (n h : string) :
  String.prefix n h = true <-> exists post, h = (n ++ post)%string.
Proof.
  revert h. induction n as [|a n IH]; intros h; destruct h as [|b h]; simpl.
  - split; [intros _; exists ""%string; reflexivity | reflexivity].
  - split; [intros _; exists (String b h); reflexivity | reflexivity].
  - split; [discriminate | intros [post Hp]; discriminate Hp].
  - destruct (ascii_dec a b) as [->|Hab].
    + rewrite IH. split; intros [post Hp]; exists post; congruence.
    + split; [discriminate | intros [post Hp]; congruence].
Qed.

Lemma contains_iff (n h : string) :
  contains n h = true <-> exists pre post, h = (pre ++ n ++ post)%string.
Proof.
  induction h as [|b h IH]; cbn [contains].
  - destruct (String.prefix n "") eqn:P.
    + split; [intros _|reflexivity]. apply prefix_iff in P. destruct P as [post Hp].
      exists ""%string, post. exact Hp.
    + split; [discriminate|]. intros (pre & post & Hp).
      destruct pre as [|c pre]; [|discriminate Hp]. cbn [String.append] in Hp.
      assert (String.prefix n "" = true) by (apply prefix_iff; exists post; exact Hp).
      congruence.
  - destruct (String.prefix n (String b h)) eqn:P.
    + split; [intros _|reflexivity]. apply prefix_iff in P. destruct P as [post Hp].
      exists ""%string, post. exact Hp.
    + rewrite IH. split.
      * intros (pre & post & Hp). exists (String b pre), post.
        cbn [String.append]. congruence.
      * intros (pre & post & Hp). destruct pre as [|c pre]; cbn [String.append] in Hp.
        -- assert (String.prefix n (String b h) = true)
             by (apply prefix_iff; exists post; exact Hp).
           congruence.
        -- exists pre, post. congruence.
Qed.


(** ** Logging *)




(** ** Markers *)

Lemma occlusion_loop_markers image depth_map mrd points :
  forall cs h,
    let r := occlusion_loop image depth_map mrd true points cs h in
    (fst cs + length (filter (is_marker VISIBLE_VERTEX_COLOR) (events r)))%nat =
      fst (value r) /\
    (fst cs + snd cs + length points)%nat =
      (fst (value r) + snd (value r) +
       length (filter (is_marker OCCLUDED_VERTEX_COLOR) (events r)))%nat.
Proof.
  induction points as [|p rest IH]; intros cs h; cbn [occlusion_loop].
  - cbn. lia.
  - cbn zeta. rewrite value_bind, events_bind, !filter_app, !length_app.
    specialize (IH (value (occlusion_vertex image depth_map mrd true p cs h))
                   (store (occlusion_vertex image depth_map mrd true p cs h))).
    cbn zeta in IH. destruct IH as [IH1 IH2].
    rewrite occlusion_vertex_value in IH1, IH2 |- *.
    rewrite occlusion_vertex_events.
    destruct (in_view_b mrd p); [destruct (occluded_b (h depth_map) p)|destruct (_ && _)];
      cbn [fst snd length filter app is_marker color_eqb
           OCCLUDED_VERTEX_COLOR VISIBLE_VERTEX_COLOR Z.eqb Pos.eqb andb] in *;
      lia.
Qed.

End WithCollaborators.
End OcclusionFacts.

Import Verdicts OcclusionFacts NpFacts.

Section MoreProperties.
Context {E : Collaborators}.

(** X1.  Whatever the store holds and whether or not the overlay is on, the
    two counts together never exceed the number of points: every point adds
    one to at most one of them, and only a point that passes the view test
    can be counted as visible. *)
Theorem counts_within_points image points depth_map mrd draw h :
  let r := value (calculate_occlusion_stats image points depth_map mrd draw h) in
  (fst r + snd r <= length points)%nat /\
  (fst r <= count (in_view_b mrd) points)%nat.
Proof.
  intros r. subst r. unfold calculate_occlusion_stats.
  pose proof (occlusion_loop_total image depth_map mrd draw points (0, 0)%nat h) as T.
  pose proof (occlusion_loop_outside image depth_map mrd draw points (0, 0)%nat h) as O.
  pose proof (count_in_view_outside mrd points) as S.
  cbn zeta in T. cbn [fst snd] in *. lia.
Qed.

(** X2.  The outside count is the number of points that fail the view test;
    it is the same for every store, so it does not depend on the depth map,
    on the image or on the overlay. *)
Theorem outside_count_ignores_store image points depth_map mrd draw draw' h h' :
  snd (value (calculate_occlusion_stats image points depth_map mrd draw h)) =
  count (outside_b mrd) points /\
  snd (value (calculate_occlusion_stats image points depth_map mrd draw h)) =
  snd (value (calculate_occlusion_stats image points depth_map mrd draw' h')).
Proof.
  unfold calculate_occlusion_stats. rewrite !occlusion_loop_outside. split; reflexivity.
Qed.

(** X3.  The depth map is looked up once for each point that is not counted
    as outside, and never for the others.  With the overlay on one marker is
    drawn for each such point, with it off none; every marker goes to the
    image array. *)
Theorem one_lookup_per_point_in_view image points depth_map mrd draw h :
  let r := calculate_occlusion_stats image points depth_map mrd draw h in
  length (filter is_depth_lookup (events r)) = (length points - snd (value r))%nat /\
  length (filter is_draw (events r)) =
    (if draw then length points - snd (value r) else 0)%nat /\
  filter is_draw (events r) = filter (draws_on image) (events r).
Proof.
  intros r. subst r. unfold calculate_occlusion_stats.
  rewrite occlusion_loop_lookups, occlusion_loop_outside.
  destruct (occlusion_loop_draws image depth_map mrd draw points (0, 0)%nat h) as [D1 D2].
  rewrite D1. pose proof (count_in_view_outside mrd points) as S.
  cbn [fst snd]. split; [lia|]. split; [destruct draw; lia | exact D2].
Qed.

(** X4.  With the overlay off the counts of two batches of points add up:
    the counts of [points ++ more] are the sums of the counts of [points]
    and of [more]. *)
Theorem counts_of_concatenation image points more depth_map mrd h :
  let all := value (calculate_occlusion_stats image (points ++ more) depth_map mrd false h) in
  let a := value (calculate_occlusion_stats image points depth_map mrd false h) in
  let b := value (calculate_occlusion_stats image more depth_map mrd false h) in
  all = ((fst a + fst b)%nat, (snd a + snd b)%nat).
Proof.
  intros all a b. subst all a b. unfold calculate_occlusion_stats.
  rewrite !occlusion_loop_counts_no_draw, !count_app. reflexivity.
Qed.

(** X5.  The counts do not depend on the order of the points, as long as the
    overlay cannot reach the depth map (it is off, or the image and the
    depth map are different arrays). *)
Theorem counts_ignore_order image points points' depth_map mrd draw h :
  Permutation points points' ->
  draw = false \/ image <> depth_map ->
  value (calculate_occlusion_stats image points depth_map mrd draw h) =
  value (calculate_occlusion_stats image points' depth_map mrd draw h).
Proof.
  intros P D. unfold calculate_occlusion_stats.
  assert (R : forall pts,
            value (occlusion_loop image depth_map mrd draw pts (0, 0)%nat h) =
            value (occlusion_loop image depth_map mrd false pts (0, 0)%nat h)).
  { intros pts. destruct D as [-> | Hne]; [reflexivity|].
    apply occlusion_loop_agree; [exact Hne | reflexivity]. }
  rewrite !R, !occlusion_loop_counts_no_draw.
  rewrite (count_permutation _ _ _ P), (count_permutation (outside_b mrd) _ _ P).
  reflexivity.
Qed.

(** X6.  When every point is behind the camera or at or beyond the render
    limit, all of them are counted as outside and none as visible, no call
    leaves the module and no array changes.  This is the case for every
    list of points when [max_render_depth] is zero or negative. *)
Theorem all_points_out_of_range image points depth_map mrd draw h :
  mrd <= 0 \/ Forall (fun p => nth 2 p 0 <= 0 \/ mrd <= nth 2 p 0) points ->
  calculate_occlusion_stats image points depth_map mrd draw h =
  mkRun (0%nat, length points) h [].
Proof.
  intros H. unfold calculate_occlusion_stats.
  rewrite occlusion_loop_all_out; [reflexivity|].
  destruct H as [H|H]; [|exact H].
  apply Forall_forall. intros p _.
  destruct (Qlt_le_dec 0 (nth 2 p 0)); [right; lra | left; assumption].
Qed.


(** X7.  Raising the render limit never turns a point that was counted as
    visible or left uncounted into an outside one: the outside count does
    not grow and, with the overlay off, the visible count does not shrink. *)
Theorem wider_render_limit_sees_more image points depth_map mrd mrd' draw h :
  mrd <= mrd' ->
  (snd (value (calculate_occlusion_stats image points depth_map mrd' draw h)) <=
   snd (value (calculate_occlusion_stats image points depth_map mrd draw h)))%nat /\
  (fst (value (calculate_occlusion_stats image points depth_map mrd false h)) <=
   fst (value (calculate_occlusion_stats image points depth_map mrd' false h)))%nat.
Proof.
  intros Hm. unfold calculate_occlusion_stats.
  rewrite !occlusion_loop_outside, !occlusion_loop_counts_no_draw. cbn [fst snd].
  split.
  - apply count_monotone. intros p. unfold outside_b.
    rewrite !negb_true_iff. intros Hp.
    destruct (in_view_b mrd p) eqn:V; [|reflexivity].
    rewrite (in_view_b_wider mrd mrd' p Hm V) in Hp. discriminate Hp.
  - apply count_monotone. intros p. unfold visible_b.
    rewrite !andb_true_iff. intros [V O]. split; [|exact O].
    apply (in_view_b_wider mrd mrd' p Hm V).
Qed.

(** X8.  An agent whose projected box has fewer than 4 rows is never
    labelled, whatever the depth map holds: the visible count cannot reach
    the minimum. *)
Theorem short_box_never_labelled agent camera K image depth_map pt mrd h :
  (length (camera_bbox agent camera K h) < 4)%nat ->
  label_of (value (create_kitti_datapoint agent camera K image depth_map pt mrd h)) = None.
Proof.
  intros Hl. rewrite create_kitti_datapoint_value.
  destruct (object_type agent h); [|reflexivity].
  destruct (visibility_gate _ _ _) eqn:G; [|reflexivity].
  exfalso. unfold visibility_gate, enough_visible in G.
  apply andb_true_iff in G. destruct G as [G _]. apply Nat.leb_le in G.
  pose proof (counts_within_points image (camera_bbox agent camera K h) depth_map mrd
                false h) as [T _].
  unfold counts in G. unfold MIN_VISIBLE_VERTICES_FOR_RENDER in G. lia.
Qed.

(** X9.  For a box of 8 points the test on the outside count decides in one
    case only: the acceptance test passes exactly when at least 4 points are
    visible, except when exactly 4 are visible and the other 4 are all
    outside. *)
Theorem outside_test_bites_once image points depth_map mrd draw h :
  length points = 8%nat ->
  let r := value (calculate_occlusion_stats image points depth_map mrd draw h) in
  visibility_gate MIN_VISIBLE_VERTICES_FOR_RENDER (fst r) (snd r) = true <->
  (4 <= fst r)%nat /\ ~ (fst r = 4%nat /\ snd r = 4%nat).
Proof.
  intros Hl r.
  pose proof (counts_within_points image points depth_map mrd draw h) as [T _].
  fold r in T. unfold visibility_gate, enough_visible, few_outside,
    MIN_VISIBLE_VERTICES_FOR_RENDER.
  rewrite andb_true_iff, Nat.leb_le, Nat.ltb_lt. lia.
Qed.

(** X10.  The class depends on the type tag through substring occurrence
    only, and "pedestrian" wins over "vehicle": the agent is a Pedestrian
    exactly when its tag is some text, then "pedestrian", then some text; a
    Car exactly when the same holds of "vehicle" and not of "pedestrian";
    and unclassified exactly when neither word occurs.  The match is case
    sensitive. *)
Theorem class_by_substring agent h :
  let has w := exists pre post, type_id agent = (pre ++ w ++ post)%string in
  (object_type agent h = Some "Pedestrian"%string <-> has "pedestrian"%string) /\
  (object_type agent h = Some "Car"%string <->
     has "vehicle"%string /\ ~ has "pedestrian"%string) /\
  (object_type agent h = None <-> ~ has "vehicle"%string /\ ~ has "pedestrian"%string).
Proof.
  intros has. subst has. cbn beta. rewrite object_type_by_substring.
  rewrite <- !contains_iff.
  destruct (contains "pedestrian" (type_id agent));
    destruct (contains "vehicle" (type_id agent));
    repeat split; try congruence; try discriminate; intuition congruence.
Qed.



(** X12.  The area of a box is not negative when both sides are ordered
    (min <= max) or both are reversed, and not positive when exactly one
    side is reversed or a side has length zero; in the latter case it is
    below the minimum area, so such a box is always filtered out.  Swapping
    the two axes does not change the area. *)
Theorem area_sign xmin ymin xmax ymax :
  ((xmin <= xmax /\ ymin <= ymax) \/ (xmax <= xmin /\ ymax <= ymin) ->
     0 <= calc_bbox2d_area (xmin, ymin, xmax, ymax)) /\
  ((xmax <= xmin /\ ymin <= ymax) \/ (xmin <= xmax /\ ymax <= ymin) ->
     calc_bbox2d_area (xmin, ymin, xmax, ymax) <= 0 /\
     F64.ltb (calc_bbox2d_area (xmin, ymin, xmax, ymax)) MIN_BBOX_AREA_IN_PX = true) /\
  calc_bbox2d_area (ymin, xmin, ymax, xmax) == calc_bbox2d_area (xmin, ymin, xmax, ymax).
Proof.
  unfold calc_bbox2d_area, F64.mul.
  split; [|split].
  - intros [[Hx Hy]|[Hx Hy]]; apply F64More.rnd64_nonneg.
    + apply Qmult_le_0_compat; apply F64More.rnd64_nonneg; lra.
    + assert (A : F64.sub ymax ymin <= 0) by (apply F64More.rnd64_nonpos; lra).
      assert (B : F64.sub xmax xmin <= 0) by (apply F64More.rnd64_nonpos; lra).
      setoid_replace (F64.sub ymax ymin * F64.sub xmax xmin)
        with ((- F64.sub ymax ymin) * (- F64.sub xmax xmin)) by ring.
      apply Qmult_le_0_compat; lra.
  - intros H.
    assert (N : F64.rnd64 (F64.sub ymax ymin * F64.sub xmax xmin) <= 0).
    { apply F64More.rnd64_nonpos. destruct H as [[Hx Hy]|[Hx Hy]].
      - assert (A : 0 <= F64.sub ymax ymin) by (apply F64More.rnd64_nonneg; lra).
        assert (B : F64.sub xmax xmin <= 0) by (apply F64More.rnd64_nonpos; lra).
        setoid_replace (F64.sub ymax ymin * F64.sub xmax xmin)
          with (- (F64.sub ymax ymin * (- F64.sub xmax xmin))) by ring.
        assert (0 <= F64.sub ymax ymin * - F64.sub xmax xmin)
          by (apply Qmult_le_0_compat; lra).
        lra.
      - assert (A : F64.sub ymax ymin <= 0) by (apply F64More.rnd64_nonpos; lra).
        assert (B : 0 <= F64.sub xmax xmin) by (apply F64More.rnd64_nonneg; lra).
        setoid_replace (F64.sub ymax ymin * F64.sub xmax xmin)
          with (- ((- F64.sub ymax ymin) * F64.sub xmax xmin)) by ring.
        assert (0 <= - F64.sub ymax ymin * F64.sub xmax xmin)
          by (apply Qmult_le_0_compat; lra).
        lra. }
    split; [exact N|]. apply F64Facts.ltb_lt. unfold MIN_BBOX_AREA_IN_PX. lra.
  - apply F64Facts.rnd64_Qeq. ring.
Qed.

(** X13.  The relative rotation is antisymmetric: the rotation of agent [a]
    seen from the pose of agent [b] is the negation of the rotation of [b]
    seen from the pose of [a].  When agent and reference have the same yaw
    the relative rotation is zero and so is the heading taken modulo pi. *)
Theorem relative_rotation_antisymmetric a b pt h h' :
  value (get_relative_rotation_y a (transform b) h) ==
  - value (get_relative_rotation_y b (transform a) h') /\
  (yaw (rotation (transform a)) == yaw (rotation pt) ->
   value (get_relative_rotation_y a pt h) == 0 /\ heading a pt h = 0).
Proof.
  unfold heading, get_relative_rotation_y. cbn [value bind emit ret store].
  unfold F64.radians. split.
  - rewrite (F64More.mul_Qeq _ _ _ (F64More.sub_antisym _ _)).
    apply F64More.mul_opp_l.
  - intros Hy.
    assert (S0 : F64.sub (yaw (rotation (transform a))) (yaw (rotation pt)) == 0).
    { unfold F64.sub. rewrite <- F64Facts.rnd64_0 at 1.
      apply F64Facts.rnd64_Qeq. lra. }
    assert (R0 : F64.mul (F64.sub (yaw (rotation (transform a))) (yaw (rotation pt)))
                   F64.deg_to_rad == 0).
    { unfold F64.mul. rewrite <- F64Facts.rnd64_0 at 1.
      apply F64Facts.rnd64_Qeq. rewrite S0. ring. }
    split; [exact R0|].
    apply F64More.float_rem_of_zero; [exact R0 | exact F64Facts.pi_pos].
Qed.

(** X14.  [get_bounding_box_and_refpoint] treats every column of the change
    of frame alike, however many there are: for sensor-frame rows of equal
    length n, at least 1, the projected box is the projection of the first
    n - 1 columns and the reference point the projection of the last one,
    and the sensor-frame box and reference point are split the same way. *)
Theorem projection_is_columnwise agent camera k0 k1 k2 X Y Z h :
  length X = length Y -> length Y = length Z -> X <> [] ->
  firstn 3 (vehicle_to_sensor (create_bb_points agent ++ [[0; 0; 0; 1]]) agent camera)
    = [X; Y; Z] ->
  let K := [k0; k1; k2] in
  let points := zip3 X Y Z in
  let r := value (get_bounding_box_and_refpoint agent camera K h) in
  length points = length X /\
  r = ((map (pinhole_projection K) (removelast points),
        pinhole_projection K (last points (0, 0, 0))),
       (map coordinates (removelast points),
        coordinates (last points (0, 0, 0)))) /\
  length (fst (fst r)) = (length X - 1)%nat.
Proof.
  intros HXY HYZ HX Hs K points r. subst K points r.
  assert (L : length (zip3 X Y Z) = length X).
  { clear Hs HX. revert Y Z HXY HYZ. induction X as [|u X IH]; intros Y Z HXY HYZ.
    - reflexivity.
    - destruct Y as [|v Y]; [discriminate|]. destruct Z as [|w Z]; [discriminate|].
      cbn [zip3 length] in *. f_equal. apply IH; lia. }
  assert (NE : zip3 X Y Z <> []).
  { intros C. rewrite C in L. destruct X; [congruence|discriminate]. }
  split; [exact L|].
  assert (V : value (get_bounding_box_and_refpoint agent camera [k0; k1; k2] h) =
    ((map (pinhole_projection [k0; k1; k2]) (removelast (zip3 X Y Z)),
      pinhole_projection [k0; k1; k2] (last (zip3 X Y Z) (0, 0, 0))),
     (map coordinates (removelast (zip3 X Y Z)),
      coordinates (last (zip3 X Y Z) (0, 0, 0))))).
  { unfold get_bounding_box_and_refpoint. cbn [value bind emit ret store].
    unfold Np.first_rows, Np.vstack. rewrite Hs.
    unfold Np.row, Np.concatenate0, Np.negate, Np.dot, Np.all_but_last, Np.last_row.
    cbn [nth concat app map].
    set (pts := zip3 X Y Z) in *.
    set (q := fun p : F64.float * F64.float * F64.float =>
                coordinates (let '(px, py, pz) := p in (py, F64.neg pz, px))).
    assert (ET : Np.transpose [Y; map F64.neg Z; X] = map q pts).
    { rewrite transpose_three, zip3_reordered, map_map. reflexivity. }
    unfold Np.matrix, Np.vector in *. rewrite ET.
    assert (EB : Np.transpose [map (fun c => inner k0 c) (map q pts);
                               map (fun c => inner k1 c) (map q pts);
                               map (fun c => inner k2 c) (map q pts)] =
                 map (fun p => [inner k0 (q p); inner k1 (q p); inner k2 (q p)]) pts).
    { rewrite transpose_three, !map_map.
      rewrite (zip3_map (fun p => inner k0 (q p)) (fun p => inner k1 (q p))
                 (fun p => inner k2 (q p))), map_map.
      reflexivity. }
    unfold Np.matrix, Np.vector in *.
    rewrite EB, !col_map, !divide_map, concatenate1_three_map, transpose_three.
    rewrite !removelast_map.
    f_equal; f_equal.
    - apply map_ext. intros [[px py] pz]. reflexivity.
    - rewrite (last_map _ pts (0, 0, 0) _ NE).
      destruct (last pts (0, 0, 0)) as [[px py] pz]. reflexivity.
    - apply (last_map coordinates pts (0, 0, 0) _ NE). }
  split; [exact V|].
  rewrite V. cbn [fst]. rewrite length_map.
  destruct (zip3 X Y Z) as [|p l] eqn:Ez; [congruence|].
  rewrite <- L. clear. revert p. induction l as [|p' l IH]; intros p; [reflexivity|].
  cbn [removelast length] in *. rewrite IH. cbn. lia.
Qed.


(** X15.  The relative rotation never decreases when the agent's yaw grows
    and never increases when the reference yaw grows. *)
Theorem relative_rotation_monotone a a' pt pt' h :
  yaw (rotation (transform a)) <= yaw (rotation (transform a')) ->
  yaw (rotation pt') <= yaw (rotation pt) ->
  value (get_relative_rotation_y a pt h) <= value (get_relative_rotation_y a' pt' h).
Proof.
  intros Ha Hp. unfold get_relative_rotation_y. cbn [value bind emit ret store].
  unfold F64.radians, F64.mul, F64.sub.
  apply F64Facts.rnd64_mono. apply Qmult_le_compat_r.
  - apply F64Facts.rnd64_mono. lra.
  - vm_compute. discriminate.
Qed.

(** X16.  With the overlay on, the markers record the verdicts: the number
    of markers in the visible colour is the visible count, and the number
    of markers in the occluded colour is the number of points counted in
    neither count.  This holds even when the image and the depth map are
    the same array. *)
Theorem markers_match_counts image points depth_map mrd h :
  let r := calculate_occlusion_stats image points depth_map mrd true h in
  length (filter (is_marker VISIBLE_VERTEX_COLOR) (events r)) = fst (value r) /\
  length (filter (is_marker OCCLUDED_VERTEX_COLOR) (events r)) =
    (length points - (fst (value r) + snd (value r)))%nat.
Proof.
  intros r. subst r. unfold calculate_occlusion_stats.
  pose proof (occlusion_loop_markers image depth_map mrd points (0, 0)%nat h) as M.
  cbn zeta in M. cbn [fst snd] in M. lia.
Qed.

End MoreProperties.

(** * Concrete runs of the further properties *)

Import Segment.

Lemma counts_ignore_order_witness :
  value (calculate_occlusion_stats (E := rig) image [[50; 50; 4]; [20; 30; 6]] depth_map 70
           true (scene 5)) =
  value (calculate_occlusion_stats (E := rig) image [[20; 30; 6]; [50; 50; 4]] depth_map 70
           true (scene 5)).
Proof.
  apply (counts_ignore_order (E := rig) image _ _ depth_map 70 true (scene 5)
           (perm_swap _ _ []) (or_intror (fun e => Nat.neq_0_succ 0 e))).
Defined.

Lemma all_points_out_of_range_witness :
  calculate_occlusion_stats (E := rig) image [[50; 50; 4]; [20; 30; 6]] depth_map 0
    true (scene 5) =
  mkRun (0, 2)%nat (scene 5) [] /\
  calculate_occlusion_stats (E := rig) image [[50; 50; -1]; [20; 30; 80]] depth_map 70
    true (scene 5) =
  mkRun (0, 2)%nat (scene 5) [].
Proof.
  split.
  - apply (all_points_out_of_range (E := rig)). left. lra.
  - apply (all_points_out_of_range (E := rig)). right.
    repeat constructor; cbv [nth]; lra.
Defined.

Lemma wider_render_limit_witness :
  (snd (value (calculate_occlusion_stats (E := rig) image [[50; 50; 4]; [20; 30; 6]]%Q
                 depth_map 70%Q false (scene far))) <=
   snd (value (calculate_occlusion_stats (E := rig) image [[50; 50; 4]; [20; 30; 6]]%Q
                 depth_map 5%Q false (scene far))))%nat.
Proof.
  apply (wider_render_limit_sees_more (E := rig) image [[50; 50; 4]; [20; 30; 6]]%Q
           depth_map 5%Q 70%Q false (scene far)).
  lra.
Defined.

Lemma short_box_witness :
  label_of (value (create_kitti_datapoint (E := rig2) (car 3 0) tt calibration image depth_map
                     (pose 0 0) default_max_render_depth (scene2 far))) = None.
Proof.
  apply (short_box_never_labelled (E := rig2)). vm_compute. lia.
Defined.

Lemma outside_test_witness :
  visibility_gate MIN_VISIBLE_VERTICES_FOR_RENDER
    (fst (value (calculate_occlusion_stats (E := rig) image
                   (camera_bbox (E := rig) (car 3%Q 0%Q) tt calibration (scene far))
                   depth_map 70%Q false (scene far))))
    (snd (value (calculate_occlusion_stats (E := rig) image
                   (camera_bbox (E := rig) (car 3%Q 0%Q) tt calibration (scene far))
                   depth_map 70%Q false (scene far)))) = true.
Proof.
  apply (outside_test_bites_once (E := rig) image
           (camera_bbox (E := rig) (car 3%Q 0%Q) tt calibration (scene far))
           depth_map 70%Q false (scene far)).
  - vm_compute. reflexivity.
  - vm_compute. split; [lia | intros [H _]; discriminate H].
Defined.

Lemma area_sign_witness :
  0 <= calc_bbox2d_area (45, 45, 55, 55) /\
  calc_bbox2d_area (55, 45, 45, 55) <= 0.
Proof.
  split.
  - apply (proj1 (area_sign 45 45 55 55)). left. split; lra.
  - apply (proj1 (proj2 (area_sign 55 45 45 55))). left. split; lra.
Defined.

Lemma relative_rotation_antisymmetric_witness :
  heading (E := rig) (car 3 90) (pose 0 90) (scene far) = 0.
Proof.
  apply (proj2 (relative_rotation_antisymmetric (E := rig) (car 3 90) (car 3 90)
                  (pose 0 90) (scene far) (scene far))).
  cbv [yaw rotation transform car agent_at pose]. lra.
Defined.

Lemma relative_rotation_monotone_witness :
  value (get_relative_rotation_y (E := rig) (car 3 10) (pose 0 370) (scene far)) <=
  value (get_relative_rotation_y (E := rig) (car 3 20) (pose 0 360) (scene far)).
Proof.
  apply (relative_rotation_monotone (E := rig));
    cbv [yaw rotation transform car agent_at pose]; lra.
Defined.

Lemma projection_is_columnwise_witness :
  value (get_bounding_box_and_refpoint (E := rig2) (car 3 0) tt calibration (scene2 far)) =
  (([[105 # 2; 105 # 2; 4]; [55; 55; 2]], [50; 50; 3]),
   ([[4; 1; -1]; [2; 1; -1]], [3; 0; 0])).
Proof.
  refine (eq_trans (proj1 (proj2
    (projection_is_columnwise (E := rig2) (car 3 0) tt
       [10; 0; 50] [0; 10; 50] [0; 0; 1]
       [4; 2; 3] [1; 1; 0] [-1; -1; 0] (scene2 far)
       eq_refl eq_refl ltac:(discriminate) ltac:(vm_compute; reflexivity)))) _).
  vm_compute. reflexivity.
Defined.

